(** * pyowm.stationsapi30.stations_manager

    A shallow embedding of [StationsManager], the client of the OWM
    Stations API 3.0, and the properties of its specification.

    The manager talks to two collaborators that live outside the module:
    the HTTP client and the response parsers.  Both are parameters of the
    development.  Every method is a computation in a small monad that
    threads the state of the outside world and the log of the requests
    handed to the HTTP client, and that may raise a Python exception. *)

From Stdlib Require Import ZArith QArith.
From stdpp Require Import base option list strings gmap.

(** ** Python values *)

(** A Python [float]: a finite value (the rational it denotes), one of
    the two infinities, or NaN. *)
Inductive pyfloat : Type :=
| Finite (q : Q)
| PosInf
| NegInf
| NaN.

(** The scalar values that travel through the manager: [None], booleans,
    integers, floats and strings. *)
Inductive pyval : Type :=
| VNone
| VBool (b : bool)
| VInt (z : Z)
| VFloat (x : pyfloat)
| VStr (s : string).

(** A numeric argument: an [int] or a [float]. *)
Inductive number : Type :=
| NInt (z : Z)
| NFloat (x : pyfloat).

(** [v is not None] *)
Definition is_not_none (v : pyval) : bool :=
  match v with VNone => false | _ => true end.

(** [x is not None] for an optional argument. *)
Definition is_given {A} (x : option A) : bool :=
  match x with Some _ => true | None => false end.

(** [isinstance(v, int)]: [bool] is a subclass of [int]. *)
Definition isinstance_int (v : pyval) : bool :=
  match v with VBool _ | VInt _ => true | _ => false end.

(** The integer an instance of [int] stands for ([True] is 1). *)
Definition int_value (v : pyval) : option Z :=
  match v with
  | VInt z => Some z
  | VBool b => Some (if b then 1%Z else 0%Z)
  | _ => None
  end.

(** A number as a value: it is passed on as it is, an [int] as an [int]
    and a [float] as a [float]. *)
Definition of_number (n : number) : pyval :=
  match n with NInt z => VInt z | NFloat x => VFloat x end.

(** An optional number as a value. *)
Definition of_num (x : option number) : pyval :=
  match x with Some n => of_number n | None => VNone end.

(** [str(x)] for an optional string. *)
Definition py_str (x : option string) : string :=
  match x with Some s => s | None => "None" end.

(** [x < y] on finite values. *)
Definition Qltb (x y : Q) : bool :=
  match (x ?= y)%Q with Lt => true | _ => false end.

(** [x < c] for a number [x] and a finite constant [c].  An [int] is
    compared by its exact value; every comparison with NaN is false. *)
Definition num_ltb (x : number) (c : Q) : bool :=
  match x with
  | NInt z => Qltb (inject_Z z) c
  | NFloat (Finite q) => Qltb q c
  | NFloat NegInf => true
  | NFloat PosInf => false
  | NFloat NaN => false
  end.

(** [x > c] for a number [x] and a finite constant [c]. *)
Definition num_gtb (x : number) (c : Q) : bool :=
  match x with
  | NInt z => Qltb c (inject_Z z)
  | NFloat (Finite q) => Qltb c q
  | NFloat PosInf => true
  | NFloat NegInf => false
  | NFloat NaN => false
  end.

(** [x == c] for a number [x] and a finite constant [c]. *)
Definition num_eqb (x : number) (c : Q) : bool :=
  match x with
  | NInt z => Qeq_bool (inject_Z z) c
  | NFloat (Finite q) => Qeq_bool q c
  | _ => false
  end.

(** ** Exceptions and results *)

Inductive exn : Type :=
| AssertionError (msg : option string)
| ValueError (msg : string)
| TypeError (msg : string)
| CollaboratorError (tag : string).

Inductive outcome (A : Type) : Type :=
| Return (a : A)
| Raise (e : exn).
Arguments Return {A} a.
Arguments Raise {A} e.

(** ** Requests and decoded responses *)

Inductive http_method : Type := GET | POST | PUT | DELETE.

Record request : Type := Request {
  meth : http_method;
  url : string;
  params : gmap string pyval;
  data : option (gmap string pyval);
  headers : gmap string string
}.

(** A decoded JSON body. *)
#[local] Unset Elimination Schemes.
Inductive json : Type :=
| JNull
| JBool (b : bool)
| JNum (q : Q)
| JStr (s : string)
| JList (items : list json)
| JDict (fields : list (string * json)).
#[local] Set Elimination Schemes.

Fixpoint chars (s : string) : list string :=
  match s with
  | EmptyString => []
  | String c s' => String c EmptyString :: chars s'
  end.

(** [for item in data]: the items a decoded body yields when it is
    iterated.  A list yields its elements, a dictionary its keys, a
    string its characters; the other values are not iterable. *)
Definition py_iter (d : json) : outcome (list json) :=
  match d with
  | JList items => Return items
  | JDict fields => Return (map (fun kv => JStr (fst kv)) fields)
  | JStr s => Return (map JStr (chars s))
  | _ => Raise (TypeError "object is not iterable")
  end.

(** ** Domain objects *)

(** The fields of a station that the manager reads.  The identifier is
    formatted into the URL, the other fields are copied to the body. *)
Record Station : Type := {
  id : option string;
  external_id : pyval;
  name : pyval;
  lat : pyval;
  lon : pyval;
  alt : pyval
}.

(** What the manager uses of a measurement: its station identifier and
    its field map. *)
Class ToFieldMap (Measurement : Type) : Type := {
  station_id : Measurement -> pyval;
  to_dict : Measurement -> gmap string pyval
}.

(** A buffer is iterated as the sequence of its measurements. *)
Record Buffer (Measurement : Type) : Type := {
  measurements : list Measurement
}.
Arguments measurements {Measurement} b.

Record StationsManager : Type := { API_key : string }.

Definition STATIONS_API_VERSION : Z * Z * Z := (3, 0, 0)%Z.

Definition stations_api_version (self : StationsManager) : Z * Z * Z :=
  STATIONS_API_VERSION.

(** [StationsManager.__init__] *)
Definition init (API_key : option string) : outcome StationsManager :=
  match API_key with
  | None => Raise (AssertionError (Some "You must provide a valid API Key"))
  | Some k => Return {| API_key := k |}
  end.

Definition json_headers : gmap string string :=
  {[ "Content-Type" := "application/json" ]}.

Definition stations_url : string :=
  "http://api.openweathermap.org/data/3.0/stations".

Definition measurements_url : string :=
  "http://api.openweathermap.org/data/3.0/measurements".

(** ['http://api.openweathermap.org/data/3.0/stations/%s' % str(id)] *)
Definition station_url (i : option string) : string :=
  "http://api.openweathermap.org/data/3.0/stations/" +:+ py_str i.

(** [{'appid': self.API_key}] *)
Definition auth (self : StationsManager) : gmap string pyval :=
  {[ "appid" := VStr (API_key self) ]}.

(** [dict(external_id=.., name=.., lat=.., lon=.., alt=..)] *)
Definition station_body (external_id name lat lon alt : pyval)
  : gmap string pyval :=
  <[ "external_id" := external_id ]>
  (<[ "name" := name ]>
  (<[ "lat" := lat ]>
  (<[ "lon" := lon ]>
  (<[ "alt" := alt ]> ∅)))).

(** The [query] dictionary of [get_measurements]; [limit] is added when it
    is given. *)
Definition measurements_query (self : StationsManager)
    (station_id aggregated_on : pyval) (from_timestamp to_timestamp : Z)
    (limit : pyval) : gmap string pyval :=
  let query : gmap string pyval :=
    <[ "appid" := VStr (API_key self) ]>
    (<[ "station_id" := station_id ]>
    (<[ "type" := aggregated_on ]>
    (<[ "from" := VInt from_timestamp ]>
    (<[ "to" := VInt to_timestamp ]> ∅)))) in
  if is_not_none limit then <[ "limit" := limit ]> query else query.

(** ** Test doubles

    Concrete collaborators, used to run the manager on examples.  The
    world of a double is the number of requests it has served. *)

(** A client that answers every request with status 200 and [body]. *)
Definition ok_transport (body : json)
  : request -> nat -> outcome (Z * json) * nat :=
  fun _ n => (Return (200%Z, body), S n).

(** A client that refuses its [k]-th request (counted from 0). *)
Definition flaky_transport (k : nat)
  : request -> nat -> outcome (Z * json) * nat :=
  fun _ n =>
    (if decide (n = k)
     then Raise (CollaboratorError "connection refused")
     else Return (200%Z, JNull),
     S n).

(** A parser that reads a station off its identifier. *)
Definition demo_station_parser (j : json) : outcome Station :=
  match j with
  | JStr s =>
      Return {| id := Some s; external_id := VNone; name := VNone;
                lat := VNone; lon := VNone; alt := VNone |}
  | _ => Raise (CollaboratorError "not a station")
  end.

(** A parser of aggregated measurements that keeps numbers. *)
Definition demo_aggregated_parser (j : json) : outcome Q :=
  match j with
  | JNum q => Return q
  | _ => Raise (CollaboratorError "not an aggregated measurement")
  end.

(** A measurement with a temperature. *)
Record reading : Type := {
  reading_station : pyval;
  reading_timestamp : Z;
  reading_temperature : Q
}.

#[export] Instance reading_fields : ToFieldMap reading := {
  station_id := reading_station;
  to_dict r :=
    <[ "station_id" := reading_station r ]>
    (<[ "dt" := VInt (reading_timestamp r) ]>
    (<[ "temperature" := VFloat (Finite (reading_temperature r)) ]> ∅))
}.

Definition demo_manager : StationsManager := {| API_key := "key" |}.

Definition reading_a : reading :=
  {| reading_station := VStr "st1"; reading_timestamp := 1000;
     reading_temperature := 21 |}.

Definition reading_b : reading :=
  {| reading_station := VStr "st2"; reading_timestamp := 1060;
     reading_temperature := 22 |}.

(** A measurement that lacks its station identifier. *)
Definition reading_orphan : reading :=
  {| reading_station := VNone; reading_timestamp := 1120;
     reading_temperature := 23 |}.

Definition demo_station (i : option string) : Station :=
  {| id := i; external_id := VStr "ext"; name := VStr "roof";
     lat := VFloat (Finite 45); lon := VFloat (Finite 9); alt := VNone |}.

(** ** The manager monad *)

Section Manager.

(** The state of the outside world (the remote service, the network). *)
Context {World : Type}.

(** The HTTP client: it receives a request, answers with a status and a
    decoded body or raises, and may change the world. *)
Variable transport : request -> World -> outcome (Z * json) * World.

(** The parsers of the two kinds of response. *)
Context {AggregatedMeasurement : Type}.
Variable station_parse_dict : json -> outcome Station.
Variable aggregated_parse_dict : json -> outcome AggregatedMeasurement.

(** The measurements handled by the manager. *)
Context {Measurement : Type} `{!ToFieldMap Measurement}.

(** A state: the world and the requests handed to the HTTP client so
    far, oldest first. *)
Record state : Type := State { world : World; calls : list request }.

Definition M (A : Type) : Type := state -> outcome A * state.

Definition ret {A} (a : A) : M A := fun st => (Return a, st).

Definition raise {A} (e : exn) : M A := fun st => (Raise e, st).

Definition bind {A B} (c : M A) (k : A -> M B) : M B :=
  fun st =>
    match c st with
    | (Return a, st') => k a st'
    | (Raise e, st') => (Raise e, st')
    end.

Definition lift {A} (o : outcome A) : M A := fun st => (o, st).

(** [assert b] *)
Definition assert (b : bool) : M unit :=
  if b then ret tt else raise (AssertionError None).

(** One call of the HTTP client. *)
Definition http (r : request) : M (Z * json) :=
  fun st =>
    let (o, w) := transport r (world st) in
    (o, {| world := w; calls := calls st ++ [r] |}).

Notation "x <- c ;; k" := (bind c (fun x => k))
  (at level 100, c at next level, right associativity).
Notation "c ;;; k" := (bind c (fun _ => k))
  (at level 100, right associativity).

(** [for x in l: body(x)] *)
Fixpoint for_each {A} (body : A -> M unit) (l : list A) : M unit :=
  match l with
  | [] => ret tt
  | x :: l' => body x ;;; for_each body l'
  end.

(** [[f(x) for x in l]] *)
Fixpoint comprehension {A B} (f : A -> M B) (l : list A) : M (list B) :=
  match l with
  | [] => ret []
  | x :: l' => y <- f x ;; ys <- comprehension f l' ;; ret (y :: ys)
  end.

(** The requests of the HTTP client's four methods. *)
Definition get_json (u : string) (p : gmap string pyval)
    (h : gmap string string) : M (Z * json) :=
  http {| meth := GET; url := u; params := p; data := None; headers := h |}.

Definition post (u : string) (p d : gmap string pyval)
    (h : gmap string string) : M (Z * json) :=
  http {| meth := POST; url := u; params := p; data := Some d; headers := h |}.

Definition put (u : string) (p d : gmap string pyval)
    (h : gmap string string) : M (Z * json) :=
  http {| meth := PUT; url := u; params := p; data := Some d; headers := h |}.

Definition delete (u : string) (p : gmap string pyval)
    (h : gmap string string) : M (Z * json) :=
  http {| meth := DELETE; url := u; params := p; data := None; headers := h |}.

(** [assert x is not None], giving the value of [x] to what follows. *)
Definition required {A} (x : option A) : M A :=
  match x with Some a => ret a | None => raise (AssertionError None) end.

(** [if b: raise e] *)
Definition raise_if (b : bool) (e : exn) : M unit :=
  if b then raise e else ret tt.

(** ** The methods of [StationsManager] *)

Definition get_stations (self : StationsManager) : M (list Station) :=
  r <- get_json stations_url (auth self) json_headers ;;
  items <- lift (py_iter (snd r)) ;;
  comprehension (fun item => lift (station_parse_dict item)) items.

Definition get_station (self : StationsManager) (id : option string)
  : M Station :=
  r <- get_json (station_url id) (auth self) json_headers ;;
  lift (station_parse_dict (snd r)).

Definition create_station (self : StationsManager)
    (external_id name : pyval) (lat lon : option number)
    (alt : option number)
  : M Station :=
  assert (is_not_none external_id) ;;;
  assert (is_not_none name) ;;;
  lon <- required lon ;;
  lat <- required lat ;;
  raise_if (num_ltb lon (-180) || num_gtb lon 180)
    (ValueError "'lon' value must be between -180 and 180") ;;;
  raise_if (num_ltb lat (-90) || num_gtb lat 90)
    (ValueError "'lat' value must be between -90 and 90") ;;;
  match alt with
  | Some a =>
      raise_if (num_ltb a 0) (ValueError "'alt' value must not be negative")
  | None => ret tt
  end ;;;
  r <- post stations_url (auth self)
         (station_body external_id name (of_number lat) (of_number lon)
            (of_num alt))
         json_headers ;;
  lift (station_parse_dict (snd r)).

Definition update_station (self : StationsManager) (station : Station)
  : M unit :=
  assert (is_given (id station)) ;;;
  put (station_url (id station)) (auth self)
    (station_body (external_id station) (name station) (lat station)
       (lon station) (alt station))
    json_headers ;;;
  ret tt.

Definition delete_station (self : StationsManager) (station : Station)
  : M unit :=
  assert (is_given (id station)) ;;;
  delete (station_url (id station)) (auth self) json_headers ;;;
  ret tt.

Definition send_measurement (self : StationsManager)
    (measurement : option Measurement) : M unit :=
  measurement <- required measurement ;;
  assert (is_not_none (station_id measurement)) ;;;
  post measurements_url (auth self) (to_dict measurement) json_headers ;;;
  ret tt.

Definition send_measurements (self : StationsManager)
    (list_of_measurements : option (list Measurement)) : M unit :=
  list_of_measurements <- required list_of_measurements ;;
  assert (forallb (fun m => is_not_none (station_id m))
            list_of_measurements) ;;;
  for_each
    (fun msmt =>
       post measurements_url (auth self) (to_dict msmt) json_headers ;;;
       ret tt)
    list_of_measurements.

Definition get_measurements (self : StationsManager)
    (station_id aggregated_on : pyval)
    (from_timestamp to_timestamp : option Z) (limit : pyval)
  : M (list AggregatedMeasurement) :=
  assert (is_not_none station_id) ;;;
  assert (is_not_none aggregated_on) ;;;
  from_timestamp <- required from_timestamp ;;
  assert (0 <? from_timestamp)%Z ;;;
  to_timestamp <- required to_timestamp ;;
  assert (0 <? to_timestamp)%Z ;;;
  raise_if (to_timestamp <? from_timestamp)%Z
    (ValueError "End timestamp can't be earlier than begin timestamp") ;;;
  (if is_not_none limit
   then assert (isinstance_int limit) ;;;
        assert (match int_value limit with
                | Some z => (0 <=? z)%Z
                | None => false
                end)
   else ret tt) ;;;
  let query :=
    measurements_query self station_id aggregated_on from_timestamp
      to_timestamp limit in
  r <- get_json measurements_url query json_headers ;;
  items <- lift (py_iter (snd r)) ;;
  comprehension (fun item => lift (aggregated_parse_dict item)) items.

Definition send_buffer (self : StationsManager)
    (buffer : option (Buffer Measurement)) : M unit :=
  buffer <- required buffer ;;
  for_each
    (fun msmt =>
       post measurements_url (auth self) (to_dict msmt) json_headers ;;;
       ret tt)
    (measurements buffer).

(** ** Vocabulary of the properties *)

(** The request that posts one measurement. *)
Definition measurement_post (self : StationsManager) (msmt : Measurement)
  : request :=
  {| meth := POST; url := measurements_url; params := auth self;
     data := Some (to_dict msmt); headers := json_headers |}.

(** The request carries the manager's key as its [appid] parameter. *)
Definition authenticated (self : StationsManager) (r : request) : Prop :=
  params r !! "appid" = Some (VStr (API_key self)).

(** Whatever the state, the requests a computation adds to the log all
    satisfy [P], and the earlier log is left as it was. *)
Definition only_issues {A} (P : request -> Prop) (c : M A) : Prop :=
  forall st, exists l, calls (snd (c st)) = calls st ++ l /\ Forall P l.

(** The request of [get_stations]. *)
Definition get_stations_request (self : StationsManager) : request :=
  {| meth := GET; url := stations_url; params := auth self;
     data := None; headers := json_headers |}.

(** The request [create_station] sends once its checks have passed. *)
Definition create_station_request (self : StationsManager)
    (external_id name : pyval) (lat lon : number) (alt : option number)
  : request :=
  {| meth := POST; url := stations_url; params := auth self;
     data := Some (station_body external_id name (of_number lat)
                     (of_number lon) (of_num alt));
     headers := json_headers |}.

(** [x < lo or x > hi]: the number lies outside the interval.  NaN is not
    outside any interval in this sense. *)
Definition outside (x : number) (lo hi : Q) : Prop :=
  num_ltb x lo = true \/ num_gtb x hi = true.

(** The arguments of a call of [create_station] break a range check. *)
Definition out_of_range (lat lon alt : option number) : Prop :=
  (exists x, lon = Some x /\ outside x (-180) 180)
  \/ (exists y, lat = Some y /\ outside y (-90) 90)
  \/ (exists a, alt = Some a /\ num_ltb a 0 = true).

(** The four required arguments of [create_station] are given. *)
Definition required_given (external_id name : pyval)
    (lat lon : option number) : Prop :=
  external_id <> VNone /\ name <> VNone /\ lat <> None /\ lon <> None.

Definition lon_message : string :=
  "'lon' value must be between -180 and 180".

Definition lat_message : string :=
  "'lat' value must be between -90 and 90".

Definition alt_message : string :=
  "'alt' value must not be negative".

(** The value is an instance of [int] that is not negative. *)
Definition nonneg_int (v : pyval) : Prop :=
  exists z, int_value v = Some z /\ (0 <= z)%Z.

(** The loop of [send_measurements] and [send_buffer]. *)
Definition post_each (self : StationsManager) (l : list Measurement)
  : M unit :=
  for_each
    (fun msmt =>
       post measurements_url (auth self) (to_dict msmt) json_headers ;;;
       ret tt)
    l.

(** The request of [get_station]. *)
Definition get_station_request (self : StationsManager) (i : option string)
  : request :=
  {| meth := GET; url := station_url i; params := auth self;
     data := None; headers := json_headers |}.

(** The request of [update_station]. *)
Definition update_station_request (self : StationsManager)
    (station : Station) : request :=
  {| meth := PUT; url := station_url (id station); params := auth self;
     data := Some (station_body (external_id station) (name station)
                     (lat station) (lon station) (alt station));
     headers := json_headers |}.

(** The request of [delete_station]. *)
Definition delete_station_request (self : StationsManager)
    (station : Station) : request :=
  {| meth := DELETE; url := station_url (id station); params := auth self;
     data := None; headers := json_headers |}.

(** The request [get_measurements] sends once its checks have passed. *)
Definition get_measurements_request (self : StationsManager)
    (sid agg : pyval) (f t : Z) (limit : pyval) : request :=
  {| meth := GET; url := measurements_url;
     params := measurements_query self sid agg f t limit;
     data := None; headers := json_headers |}.

(** The arguments that pass the checks of [create_station]. *)
Definition station_args_ok (external_id name : pyval)
    (lat lon alt : option number) : Prop :=
  external_id <> VNone /\ name <> VNone
  /\ (exists la lo, lat = Some la /\ lon = Some lo
                    /\ ~ outside lo (-180) 180 /\ ~ outside la (-90) 90)
  /\ (forall a, alt = Some a -> num_ltb a 0 = false).

(** The arguments that pass the checks of [get_measurements]. *)
Definition measurements_args_ok (sid agg : pyval)
    (from_timestamp to_timestamp : option Z) (limit : pyval) : Prop :=
  sid <> VNone /\ agg <> VNone
  /\ (exists f t, from_timestamp = Some f /\ to_timestamp = Some t
                  /\ (0 < f)%Z /\ (f <= t)%Z)
  /\ (limit = VNone \/ nonneg_int limit).

(** The arguments on which [get_measurements] reaches the comparison of
    the two ends of the window and finds the end earlier. *)
Definition window_reversed (sid agg : pyval)
    (from_timestamp to_timestamp : option Z) : Prop :=
  sid <> VNone /\ agg <> VNone
  /\ exists f t, from_timestamp = Some f /\ to_timestamp = Some t
                 /\ (0 < t)%Z /\ (t < f)%Z.

Definition window_message : string :=
  "End timestamp can't be earlier than begin timestamp".

(** ** Comparison of numbers *)

Lemma Qltb_lt (x y : Q) : Qltb x y = true <-> (x < y)%Q.
Proof.
  unfold Qltb. rewrite Qlt_alt. destruct (x ?= y)%Q; split; congruence.
Qed.

Lemma Qltb_ge (x y : Q) : Qltb x y = false <-> (y <= x)%Q.
Proof.
  split.
  - intros E. apply Qnot_lt_le. intros Hlt.
    apply Qltb_lt in Hlt. congruence.
  - intros Hle. destruct (Qltb x y) eqn:E; [|reflexivity].
    apply Qltb_lt in E. exfalso. exact (Qle_not_lt _ _ Hle E).
Qed.

Lemma is_not_none_true (v : pyval) : v <> VNone -> is_not_none v = true.
Proof. by destruct v. Qed.

(** ** Running the monad *)

Lemma http_calls (r : request) (st : state) :
  calls (snd (http r st)) = calls st ++ [r].
Proof. unfold http. destruct (transport r (world st)); reflexivity. Qed.

Lemma http_outcome (r : request) (st : state) :
  http r st = (fst (transport r (world st)),
               {| world := snd (transport r (world st));
                  calls := calls st ++ [r] |}).
Proof. unfold http. destruct (transport r (world st)); reflexivity. Qed.

Lemma bind_calls_after {A B} (c : M A) (k : A -> M B) (st : state)
    (r : request) :
  calls (snd (c st)) = calls st ++ [r] ->
  (forall a st', calls (snd (k a st')) = calls st') ->
  calls (snd (bind c k st)) = calls st ++ [r].
Proof.
  intros Hc Hk. unfold bind. destruct (c st) as [[a|e] st']; simpl in *.
  - rewrite Hk. exact Hc.
  - exact Hc.
Qed.

Lemma lift_calls {A} (o : outcome A) (st : state) :
  calls (snd (lift o st)) = calls st.
Proof. reflexivity. Qed.

(** ** Creation of a station *)

Lemma num_eqb_not_lt (x : number) (c c' : Q) :
  num_eqb x c = true -> (c' <= c)%Q -> num_ltb x c' = false.
Proof.
  destruct x as [z|[q| | |]]; simpl; try discriminate;
    intros Heq Hle; apply Qeq_bool_iff in Heq; apply Qltb_ge;
    by rewrite Heq.
Qed.

Lemma num_eqb_not_gt (x : number) (c c' : Q) :
  num_eqb x c = true -> (c <= c')%Q -> num_gtb x c' = false.
Proof.
  destruct x as [z|[q| | |]]; simpl; try discriminate;
    intros Heq Hle; apply Qeq_bool_iff in Heq; apply Qltb_ge;
    by rewrite Heq.
Qed.

Lemma outside_bool (x : number) (lo hi : Q) :
  outside x lo hi <-> num_ltb x lo || num_gtb x hi = true.
Proof. unfold outside. by rewrite orb_true_iff. Qed.

Lemma not_outside_bool (x : number) (lo hi : Q) :
  ~ outside x lo hi <-> num_ltb x lo || num_gtb x hi = false.
Proof. rewrite outside_bool. apply not_true_iff_false. Qed.

(** What is left of [create_station] once its checks have passed. *)
Lemma request_calls {B} (r : request) (f : Z * json -> outcome B) st :
  calls (snd ((x <- http r ;; lift (f x)) st)) = calls st ++ [r].
Proof.
  apply bind_calls_after; [apply http_calls|]. intros; apply lift_calls.
Qed.

Lemma request_changes_state {B} (r : request) (f : Z * json -> outcome B)
    st (o : outcome B) :
  (x <- http r ;; lift (f x)) st <> (o, st).
Proof.
  intros Heq. pose proof (request_calls r f st) as Hcalls.
  rewrite Heq in Hcalls. simpl in Hcalls.
  apply (f_equal length) in Hcalls. rewrite length_app in Hcalls.
  simpl in Hcalls. lia.
Qed.

(** The checks of [create_station] on arguments that are given, one
    after the other. *)
Lemma create_station_given self (external_id name : pyval)
    (la lo : number) (alt : option number) st :
  external_id <> VNone -> name <> VNone ->
  create_station self external_id name (Some la) (Some lo) alt st
  = if num_ltb lo (-180) || num_gtb lo 180
    then (Raise (ValueError lon_message), st)
    else if num_ltb la (-90) || num_gtb la 90
    then (Raise (ValueError lat_message), st)
    else if match alt with Some a => num_ltb a 0 | None => false end
    then (Raise (ValueError alt_message), st)
    else (r <- http (create_station_request self external_id name la lo
                       alt) ;;
          lift (station_parse_dict (snd r))) st.
Proof.
  intros He Hn. apply is_not_none_true in He, Hn.
  unfold create_station, post, create_station_request.
  rewrite He, Hn. unfold bind at 1 2 3 4; simpl.
  destruct (num_ltb lo (-180) || num_gtb lo 180); [reflexivity|].
  unfold bind at 1; simpl.
  destruct (num_ltb la (-90) || num_gtb la 90); [reflexivity|].
  unfold bind at 1; simpl.
  destruct alt as [a|]; [|reflexivity].
  unfold bind at 1; simpl.
  destruct (num_ltb a 0); reflexivity.
Qed.

(** The required arguments are checked first: when one of them is
    [None] the call raises an [AssertionError], whatever the values of
    the others, and the HTTP client is not called either. *)
Lemma create_station_missing_argument self (external_id name : pyval)
    (lat lon alt : option number) st :
  external_id = VNone \/ name = VNone \/ lat = None \/ lon = None ->
  create_station self external_id name lat lon alt st
  = (Raise (AssertionError None), st).
Proof.
  intros Hmiss. unfold create_station.
  destruct external_id; [reflexivity|..];
    (destruct name; [reflexivity|..]);
    (destruct lon; [|reflexivity]);
    (destruct lat; [|reflexivity]);
    destruct Hmiss as [?|[?|[?|?]]]; discriminate.
Qed.

(** Every call of [create_station] ends in one of five ways, decided by
    the first check that fails. *)
Lemma create_station_outcome self (external_id name : pyval)
    (lat lon alt : option number) st :
  ((external_id = VNone \/ name = VNone \/ lat = None \/ lon = None)
   /\ create_station self external_id name lat lon alt st
      = (Raise (AssertionError None), st))
  \/
  (exists la lo,
      external_id <> VNone /\ name <> VNone
      /\ lat = Some la /\ lon = Some lo
      /\ ((outside lo (-180) 180
           /\ create_station self external_id name lat lon alt st
              = (Raise (ValueError lon_message), st))
          \/
          (~ outside lo (-180) 180 /\ outside la (-90) 90
           /\ create_station self external_id name lat lon alt st
              = (Raise (ValueError lat_message), st))
          \/
          (~ outside lo (-180) 180 /\ ~ outside la (-90) 90
           /\ (exists a, alt = Some a /\ num_ltb a 0 = true)
           /\ create_station self external_id name lat lon alt st
              = (Raise (ValueError alt_message), st))
          \/
          (~ outside lo (-180) 180 /\ ~ outside la (-90) 90
           /\ (forall a, alt = Some a -> num_ltb a 0 = false)
           /\ create_station self external_id name lat lon alt st
              = (r <- http (create_station_request self external_id name
                              la lo alt) ;;
                 lift (station_parse_dict (snd r))) st))).
Proof.
  destruct (is_not_none external_id) eqn:Ee;
    [|left; split; [destruct external_id; try discriminate; by left|];
      apply create_station_missing_argument;
      destruct external_id; try discriminate; by left].
  destruct (is_not_none name) eqn:En;
    [|left; split; [destruct name; try discriminate; by right; left|];
      apply create_station_missing_argument;
      destruct name; try discriminate; by right; left].
  destruct lat as [la|];
    [|left; split; [by right; right; left|];
      apply create_station_missing_argument; by right; right; left].
  destruct lon as [lo|];
    [|left; split; [by right; right; right|];
      apply create_station_missing_argument; by right; right; right].
  assert (He : external_id <> VNone) by (intros ->; discriminate).
  assert (Hn : name <> VNone) by (intros ->; discriminate).
  right. exists la, lo. do 4 (split; [done|]).
  rewrite (create_station_given self external_id name la lo alt st He Hn).
  destruct (num_ltb lo (-180) || num_gtb lo 180) eqn:Elo.
  { left. split; [by apply outside_bool|done]. }
  right. apply not_outside_bool in Elo.
  destruct (num_ltb la (-90) || num_gtb la 90) eqn:Ela.
  { left. split; [done|]. split; [by apply outside_bool|done]. }
  right. apply not_outside_bool in Ela.
  destruct alt as [a|].
  - destruct (num_ltb a 0) eqn:Ea.
    + left. split; [done|]. split; [done|]. split; [by exists a|done].
    + right. split; [done|]. split; [done|]. split; [|done].
      by intros a' [= <-].
  - right. split; [done|]. split; [done|]. split; [|done].
    intros a' [=].
Qed.

(** C1.  A call of [create_station] whose longitude is given and lies
    outside [-180,180], or whose latitude is given and lies outside
    [-90,90], or whose altitude is given and negative, raises an error
    and leaves the state as it was: the HTTP client is not called.  The
    error is a [ValueError] when the four required arguments are given,
    and the [AssertionError] of a missing argument when one of them is
    [None].  A boundary value does not raise the range error of its
    argument, whatever the other arguments are: longitude -180 or 180,
    latitude -90 or 90, altitude 0; and with the required arguments
    given and the three values on a boundary, the call goes on to its
    one POST request. *)
Theorem create_station_range_checks self (external_id name : pyval)
    (lat lon alt : option number) (st : state) :
  (out_of_range lat lon alt ->
   (exists e,
       create_station self external_id name lat lon alt st = (Raise e, st)
       /\ (e = AssertionError None \/ exists msg, e = ValueError msg))
   /\ (required_given external_id name lat lon ->
       exists msg,
         create_station self external_id name lat lon alt st
         = (Raise (ValueError msg), st))
   /\ (external_id = VNone \/ name = VNone \/ lat = None \/ lon = None ->
       create_station self external_id name lat lon alt st
       = (Raise (AssertionError None), st)))
  /\
  (forall x,
      lon = Some x -> num_eqb x (-180) = true \/ num_eqb x 180 = true ->
      create_station self external_id name lat lon alt st
      <> (Raise (ValueError lon_message), st))
  /\
  (forall y,
      lat = Some y -> num_eqb y (-90) = true \/ num_eqb y 90 = true ->
      create_station self external_id name lat lon alt st
      <> (Raise (ValueError lat_message), st))
  /\
  (forall a,
      alt = Some a -> num_eqb a 0 = true ->
      create_station self external_id name lat lon alt st
      <> (Raise (ValueError alt_message), st))
  /\
  (forall x y a,
      external_id <> VNone -> name <> VNone ->
      lon = Some x -> lat = Some y -> alt = Some a ->
      num_eqb x (-180) = true \/ num_eqb x 180 = true ->
      num_eqb y (-90) = true \/ num_eqb y 90 = true ->
      num_eqb a 0 = true ->
      calls (snd (create_station self external_id name lat lon alt st))
      = calls st ++ [create_station_request self external_id name y x alt]).
Proof.
  assert (Hlon : forall x,
             num_eqb x (-180) = true \/ num_eqb x 180 = true ->
             ~ outside x (-180) 180).
  { intros x [Hx|Hx] [Hlt|Hgt];
      [rewrite (num_eqb_not_lt x _ _ Hx) in Hlt
      |rewrite (num_eqb_not_gt x _ _ Hx) in Hgt
      |rewrite (num_eqb_not_lt x _ _ Hx) in Hlt
      |rewrite (num_eqb_not_gt x _ _ Hx) in Hgt]; discriminate. }
  assert (Hlat : forall y,
             num_eqb y (-90) = true \/ num_eqb y 90 = true ->
             ~ outside y (-90) 90).
  { intros y [Hy|Hy] [Hlt|Hgt];
      [rewrite (num_eqb_not_lt y _ _ Hy) in Hlt
      |rewrite (num_eqb_not_gt y _ _ Hy) in Hgt
      |rewrite (num_eqb_not_lt y _ _ Hy) in Hlt
      |rewrite (num_eqb_not_gt y _ _ Hy) in Hgt]; discriminate. }
  assert (Halt : forall a, num_eqb a 0 = true -> num_ltb a 0 = false).
  { intros a Ha. apply (num_eqb_not_lt a 0 0 Ha). discriminate. }
  split; [|split; [|split; [|split]]].
  - intros Hout.
    destruct (create_station_outcome self external_id name lat lon alt st)
      as [[Hmiss Hrun]
         |(la & lo & He & Hn & -> & -> &
           [[Hlo Hrun]|[(Hlo & Hla & Hrun)|[(Hlo & Hla & Ha & Hrun)
           |(Hlo & Hla & Ha & Hrun)]]])];
      rewrite Hrun.
    + split; [eauto|]. split; [|done].
      intros (H1 & H2 & H3 & H4).
      destruct Hmiss as [?|[?|[?|?]]]; contradiction.
    + split; [eauto|]. split; [eauto|].
      intros [?|[?|[?|?]]]; (contradiction || discriminate).
    + split; [eauto|]. split; [eauto|].
      intros [?|[?|[?|?]]]; (contradiction || discriminate).
    + split; [eauto|]. split; [eauto|].
      intros [?|[?|[?|?]]]; (contradiction || discriminate).
    + exfalso.
      destruct Hout
        as [(x & [= <-] & Hx)|[(y & [= <-] & Hy)|(a & Halt' & Ha')]];
        [contradiction|contradiction|].
      rewrite (Ha a Halt') in Ha'. discriminate.
  - intros x -> Hx Heq.
    destruct (create_station_outcome self external_id name lat (Some x) alt
                st)
      as [[Hmiss Hrun]
         |(la & lo & He & Hn & -> & [= <-] &
           [[Hlo Hrun]|[(Hlo & Hla & Hrun)|[(Hlo & Hla & Ha & Hrun)
           |(Hlo & Hla & Ha & Hrun)]]])];
      rewrite Hrun in Heq; try discriminate.
    + by destruct (Hlon x Hx).
    + by apply request_changes_state in Heq.
  - intros y -> Hy Heq.
    destruct (create_station_outcome self external_id name (Some y) lon alt
                st)
      as [[Hmiss Hrun]
         |(la & lo & He & Hn & [= <-] & -> &
           [[Hlo Hrun]|[(Hlo & Hla & Hrun)|[(Hlo & Hla & Ha & Hrun)
           |(Hlo & Hla & Ha & Hrun)]]])];
      rewrite Hrun in Heq; try discriminate.
    + by destruct (Hlat y Hy).
    + by apply request_changes_state in Heq.
  - intros a -> Ha0 Heq.
    destruct (create_station_outcome self external_id name lat lon (Some a)
                st)
      as [[Hmiss Hrun]
         |(la & lo & He & Hn & -> & -> &
           [[Hlo Hrun]|[(Hlo & Hla & Hrun)|[(Hlo & Hla & Ha & Hrun)
           |(Hlo & Hla & Ha & Hrun)]]])];
      rewrite Hrun in Heq; try discriminate.
    + destruct Ha as (a' & [= <-] & Ha). rewrite (Halt a Ha0) in Ha.
      discriminate.
    + by apply request_changes_state in Heq.
  - intros x y a He Hn -> -> -> Hx Hy Ha0.
    rewrite (create_station_given self external_id name y x (Some a) st
               He Hn).
    rewrite (proj1 (not_outside_bool x _ _) (Hlon x Hx)).
    rewrite (proj1 (not_outside_bool y _ _) (Hlat y Hy)).
    rewrite (Halt a Ha0). apply request_calls.
Qed.

(** ** The posting loop *)

Lemma post_each_cons self (x : Measurement) (l : list Measurement) st :
  post_each self (x :: l) st
  = match transport (measurement_post self x) (world st) with
    | (Return _, w) =>
        post_each self l
          {| world := w; calls := calls st ++ [measurement_post self x] |}
    | (Raise e, w) =>
        (Raise e,
         {| world := w; calls := calls st ++ [measurement_post self x] |})
    end.
Proof.
  unfold post_each; simpl. unfold bind, post, http, measurement_post.
  destruct (transport _ (world st)) as [[r|e] w]; reflexivity.
Qed.

Lemma post_each_app self (l1 l2 : list Measurement) st :
  post_each self (l1 ++ l2) st
  = match post_each self l1 st with
    | (Return _, st1) => post_each self l2 st1
    | (Raise e, st1) => (Raise e, st1)
    end.
Proof.
  revert st. induction l1 as [|x l1 IH]; intros st.
  - reflexivity.
  - simpl app. rewrite !post_each_cons.
    destruct (transport _ (world st)) as [[r|e] w]; [apply IH|reflexivity].
Qed.

Lemma post_each_returns self (l : list Measurement) st st' :
  post_each self l st = (Return tt, st') ->
  calls st' = calls st ++ map (measurement_post self) l.
Proof.
  revert st. induction l as [|x l IH]; intros st Hrun.
  - injection Hrun as <-. simpl. by rewrite app_nil_r.
  - rewrite post_each_cons in Hrun.
    destruct (transport _ (world st)) as [[r|e] w]; [|discriminate].
    apply IH in Hrun. simpl in Hrun. rewrite Hrun.
    by rewrite <- app_assoc.
Qed.

Lemma post_each_prefix self (l : list Measurement) st :
  exists k, k <= length l /\
    calls (snd (post_each self l st))
    = calls st ++ map (measurement_post self) (take k l).
Proof.
  revert st. induction l as [|x l IH]; intros st.
  - exists 0. split; [done|]. simpl. by rewrite app_nil_r.
  - rewrite post_each_cons.
    destruct (transport _ (world st)) as [[r|e] w].
    + destruct (IH {| world := w;
                      calls := calls st ++ [measurement_post self x] |})
        as (k & Hk & Hcalls).
      exists (S k). split; [simpl; lia|].
      rewrite Hcalls. simpl. by rewrite <- app_assoc.
    + exists 1. split; [simpl; lia|]. simpl. by destruct l.
Qed.

Lemma post_each_outcomes self (l : list Measurement) st :
  (exists st', post_each self l st = (Return tt, st'))
  \/
  (exists l1 x l2 st1 e w,
      l = l1 ++ x :: l2
      /\ post_each self l1 st = (Return tt, st1)
      /\ transport (measurement_post self x) (world st1) = (Raise e, w)).
Proof.
  revert st. induction l as [|x l IH]; intros st.
  - left. by eexists.
  - destruct (transport (measurement_post self x) (world st))
      as [[r|e] w] eqn:Ex.
    + destruct (IH {| world := w;
                      calls := calls st ++ [measurement_post self x] |})
        as [[st' Hok]|(l1 & y & l2 & st1 & e & w' & -> & Hl1 & Hy)].
      * left. exists st'. by rewrite post_each_cons, Ex.
      * right. exists (x :: l1), y, l2, st1, e, w'.
        split; [done|]. split; [|done]. by rewrite post_each_cons, Ex.
    + right. exists [], x, l, st, e, w. by repeat split.
Qed.

Lemma post_each_fails_at self (l1 l2 : list Measurement) x st st1 e w :
  post_each self l1 st = (Return tt, st1) ->
  transport (measurement_post self x) (world st1) = (Raise e, w) ->
  post_each self (l1 ++ x :: l2) st
  = (Raise e,
     {| world := w;
        calls := calls st ++ map (measurement_post self) (l1 ++ [x]) |}).
Proof.
  intros Hl1 Hx. rewrite post_each_app, Hl1, post_each_cons, Hx.
  apply post_each_returns in Hl1. rewrite Hl1, map_app. simpl.
  by rewrite <- app_assoc.
Qed.

Lemma send_measurements_checked self (l : list Measurement) st :
  forallb (fun m => is_not_none (station_id m)) l = true ->
  send_measurements self (Some l) st = post_each self l st.
Proof.
  intros Hall. unfold send_measurements, required.
  unfold bind at 1 2; simpl. by rewrite Hall.
Qed.

(** ** Batches of measurements *)

Lemma send_measurements_missing_id self (l : list Measurement) st :
  (exists m, In m l /\ station_id m = VNone) ->
  send_measurements self (Some l) st = (Raise (AssertionError None), st).
Proof.
  intros (m & Hin & Hm).
  assert (Hall : forallb (fun m => is_not_none (station_id m)) l = false).
  { apply not_true_is_false. intros Hall.
    rewrite forallb_forall in Hall. specialize (Hall m Hin).
    by rewrite Hm in Hall. }
  unfold send_measurements, required. unfold bind at 1 2; simpl.
  by rewrite Hall.
Qed.

(** C2.  When at least one measurement of the list has no station
    identifier, [send_measurements] raises an [AssertionError] and the
    state is left as it was: the check covers the whole list before the
    first post, so no request is issued for any item. *)
Theorem send_measurements_checks_up_front self (l : list Measurement) st :
  (exists m, In m l /\ station_id m = VNone) ->
  send_measurements self (Some l) st = (Raise (AssertionError None), st)
  /\ calls (snd (send_measurements self (Some l) st)) = calls st.
Proof.
  intros Hm. by rewrite send_measurements_missing_id.
Qed.

Lemma post_each_reliable self (l : list Measurement) st :
  (forall r w, exists resp w', transport r w = (Return resp, w')) ->
  exists st', post_each self l st = (Return tt, st').
Proof.
  intros Hok. destruct (post_each_outcomes self l st)
    as [?|(l1 & x & l2 & st1 & e & w & _ & _ & Hx)]; [done|].
  destruct (Hok (measurement_post self x) (world st1)) as (? & ? & Hx').
  congruence.
Qed.

(** C6.  Once the check of the station identifiers has passed,
    [send_measurements] posts the measurements one request each, in the
    order of the list.  When it returns, the log has grown by exactly
    the posts of all the items.  When the HTTP client raises on some
    item after the items before it went through, that very exception
    is the result, the log has grown by the posts of the earlier items
    and of the failing one, and nothing is posted for the items after
    it.  Every run is of one of these two kinds. *)
Theorem send_measurements_in_order self (l : list Measurement) st :
  forallb (fun m => is_not_none (station_id m)) l = true ->
  (forall st',
      send_measurements self (Some l) st = (Return tt, st') ->
      calls st' = calls st ++ map (measurement_post self) l)
  /\
  (forall l1 x l2 st1 e w,
      l = l1 ++ x :: l2 ->
      send_measurements self (Some l1) st = (Return tt, st1) ->
      transport (measurement_post self x) (world st1) = (Raise e, w) ->
      send_measurements self (Some l) st
      = (Raise e,
         {| world := w;
            calls := calls st ++ map (measurement_post self) (l1 ++ [x]) |}))
  /\
  ((exists st', send_measurements self (Some l) st = (Return tt, st'))
   \/
   (exists l1 x l2 st1 e w,
       l = l1 ++ x :: l2
       /\ send_measurements self (Some l1) st = (Return tt, st1)
       /\ transport (measurement_post self x) (world st1) = (Raise e, w))).
Proof.
  intros Hall. rewrite send_measurements_checked by exact Hall.
  split; [|split].
  - intros st'. apply post_each_returns.
  - intros l1 x l2 st1 e w -> Hl1 Hx.
    rewrite forallb_app in Hall. apply andb_prop in Hall as [Hall1 _].
    rewrite send_measurements_checked in Hl1 by exact Hall1.
    exact (post_each_fails_at self l1 l2 x st st1 e w Hl1 Hx).
  - destruct (post_each_outcomes self l st)
      as [?|(l1 & x & l2 & st1 & e & w & -> & Hl1 & Hx)]; [by left|].
    right. exists l1, x, l2, st1, e, w. split; [done|]. split; [|done].
    rewrite forallb_app in Hall. apply andb_prop in Hall as [Hall1 _].
    by rewrite send_measurements_checked.
Qed.

(** C3.  [send_buffer] posts the measurements of the buffer in buffer
    order, one request each: the log always grows by the posts of an
    initial part of the buffer, and when the call returns it has grown
    by exactly [len(buffer)] requests, the [i]-th of which is a POST
    whose body is the field map of the [i]-th measurement.  The call
    does return when the HTTP client answers every request. *)
Theorem send_buffer_posts_in_order self (buffer : Buffer Measurement) st :
  (exists k, k <= length (measurements buffer) /\
     calls (snd (send_buffer self (Some buffer) st))
     = calls st ++
       map (measurement_post self) (take k (measurements buffer)))
  /\
  (forall st',
      send_buffer self (Some buffer) st = (Return tt, st') ->
      calls st' = calls st ++
                  map (measurement_post self) (measurements buffer)
      /\ length (calls st')
         = length (calls st) + length (measurements buffer)
      /\ forall i msmt,
           measurements buffer !! i = Some msmt ->
           exists r, calls st' !! (length (calls st) + i) = Some r
                     /\ meth r = POST
                     /\ url r = measurements_url
                     /\ data r = Some (to_dict msmt))
  /\
  ((forall r w, exists resp w', transport r w = (Return resp, w')) ->
   exists st', send_buffer self (Some buffer) st = (Return tt, st')).
Proof.
  change (send_buffer self (Some buffer) st)
    with (post_each self (measurements buffer) st).
  split; [apply post_each_prefix|]. split; [|apply post_each_reliable].
  intros st' Hrun. apply post_each_returns in Hrun.
  split; [exact Hrun|]. split.
  - by rewrite Hrun, length_app, length_map.
  - intros i msmt Hi. exists (measurement_post self msmt).
    split; [|done]. rewrite Hrun, lookup_app_r by lia.
    replace (length (calls st) + i - length (calls st)) with i by lia.
    by rewrite list_lookup_fmap, Hi.
Qed.

(** ** Update and deletion of a station *)

(** C7.  For a station whose [id] is [None], [update_station] and
    [delete_station] raise an [AssertionError] and leave the state as it
    was.  For a station with an identifier, each of them issues exactly
    one request, a PUT or a DELETE on the URL of the station, and
    returns [None] when the HTTP client answers. *)
Theorem update_and_delete_need_an_id self (station : Station) st :
  (id station = None ->
   update_station self station st = (Raise (AssertionError None), st)
   /\ delete_station self station st = (Raise (AssertionError None), st))
  /\
  (forall i, id station = Some i ->
     (exists r,
         meth r = PUT /\ url r = station_url (Some i)
         /\ calls (snd (update_station self station st)) = calls st ++ [r]
         /\ forall resp w,
              transport r (world st) = (Return resp, w) ->
              update_station self station st
              = (Return tt, {| world := w; calls := calls st ++ [r] |}))
     /\
     (exists r,
         meth r = DELETE /\ url r = station_url (Some i)
         /\ calls (snd (delete_station self station st)) = calls st ++ [r]
         /\ forall resp w,
              transport r (world st) = (Return resp, w) ->
              delete_station self station st
              = (Return tt, {| world := w; calls := calls st ++ [r] |}))).
Proof.
  split.
  - intros Hid. unfold update_station, delete_station, bind.
    by rewrite Hid.
  - intros i Hid. split.
    + eexists. split; [|split; [|split]]; cycle 2.
      * unfold update_station, put, http, bind. rewrite Hid. simpl.
        destruct (transport _ (world st)) as [[r|e] w]; reflexivity.
      * intros resp w Hw. unfold update_station, put, http, bind.
        rewrite Hid. simpl. by rewrite Hw.
      * reflexivity.
      * reflexivity.
    + eexists. split; [|split; [|split]]; cycle 2.
      * unfold delete_station, delete, http, bind. rewrite Hid. simpl.
        destruct (transport _ (world st)) as [[r|e] w]; reflexivity.
      * intros resp w Hw. unfold delete_station, delete, http, bind.
        rewrite Hid. simpl. by rewrite Hw.
      * reflexivity.
      * reflexivity.
Qed.

(** ** Listing the stations *)

Lemma comprehension_lift {A B} (f : A -> outcome B) (l : list A) st :
  (forall x, In x l -> exists y, f x = Return y) ->
  exists ys,
    comprehension (fun x => lift (f x)) l st = (Return ys, st)
    /\ Forall2 (fun x y => f x = Return y) l ys.
Proof.
  induction l as [|x l IH]; intros Hok.
  - exists []. split; [reflexivity|constructor].
  - destruct (Hok x) as [y Hy]; [by left|].
    destruct IH as (ys & Hrun & Hall); [intros; apply Hok; by right|].
    exists (y :: ys). split; [|by constructor].
    simpl. unfold bind at 1. unfold lift at 1. rewrite Hy.
    unfold bind at 1. by rewrite Hrun.
Qed.

Lemma comprehension_lift_state {A B} (f : A -> outcome B) (l : list A) st :
  snd (comprehension (fun x => lift (f x)) l st) = st.
Proof.
  induction l as [|x l IH]; [reflexivity|].
  simpl. unfold bind at 1, lift at 1.
  destruct (f x); [|reflexivity].
  unfold bind at 1.
  destruct (comprehension _ l st) as [[ys|e] st2]; exact IH.
Qed.

Lemma comprehension_lift_returns {A B} (f : A -> outcome B) (l : list A)
    (ys : list B) st st' :
  comprehension (fun x => lift (f x)) l st = (Return ys, st') ->
  Forall2 (fun x y => f x = Return y) l ys.
Proof.
  revert ys. induction l as [|x l IH]; intros ys Hrun.
  - injection Hrun as <- _. constructor.
  - simpl in Hrun. unfold bind at 1, lift at 1 in Hrun.
    destruct (f x) as [y|e] eqn:Hy; [|discriminate].
    unfold bind at 1 in Hrun.
    destruct (comprehension _ l st) as [[zs|e] st2] eqn:Hl; [|discriminate].
    injection Hrun as <- <-. constructor; [exact Hy|].
    by apply IH.
Qed.

Lemma get_stations_on_list self st (status : Z) (items : list json)
    (w : World) :
  transport (get_stations_request self) (world st)
  = (Return (status, JList items), w) ->
  get_stations self st
  = comprehension (fun item => lift (station_parse_dict item)) items
      {| world := w; calls := calls st ++ [get_stations_request self] |}.
Proof.
  intros Hw. unfold get_stations, get_json, http, bind at 1.
  fold (get_stations_request self). by rewrite Hw.
Qed.

(** C8.  When the HTTP client answers the request of [get_stations]
    with a list, the list that [get_stations] returns holds the parsed
    stations: as many as there are items in the response, in the same
    order, the [i]-th station parsed from the [i]-th item.  The call
    does return such a list when the parser reads every item. *)
Theorem get_stations_parses_each_item self st (status : Z)
    (items : list json) (w : World) :
  transport (get_stations_request self) (world st)
  = (Return (status, JList items), w) ->
  (forall stations st',
      get_stations self st = (Return stations, st') ->
      length stations = length items
      /\ Forall2 (fun item s => station_parse_dict item = Return s)
           items stations
      /\ st' = {| world := w;
                  calls := calls st ++ [get_stations_request self] |})
  /\
  ((forall item, In item items ->
                 exists s, station_parse_dict item = Return s) ->
   exists stations,
     get_stations self st
     = (Return stations,
        {| world := w;
           calls := calls st ++ [get_stations_request self] |})).
Proof.
  intros Hw. rewrite (get_stations_on_list self st status items w Hw).
  split.
  - intros stations st' Hrun.
    pose proof (comprehension_lift_returns _ _ _ _ _ Hrun) as Hall.
    split; [symmetry; by eapply Forall2_length|]. split; [exact Hall|].
    by rewrite <- (comprehension_lift_state station_parse_dict items), Hrun.
  - intros Hparse.
    destruct (comprehension_lift station_parse_dict items
                {| world := w;
                   calls := calls st ++ [get_stations_request self] |}
                Hparse) as (stations & Hrun & _).
    by exists stations.
Qed.

(** ** Aggregated measurements *)

(** The request [get_measurements] sends once its checks have passed. *)
Lemma get_measurements_checked self (sid agg : pyval) (f t : Z)
    (limit : pyval) st :
  sid <> VNone -> agg <> VNone -> (0 < f)%Z -> (f <= t)%Z ->
  limit = VNone \/ nonneg_int limit ->
  get_measurements self sid agg (Some f) (Some t) limit st
  = (r <- get_json measurements_url
            (measurements_query self sid agg f t limit) json_headers ;;
     items <- lift (py_iter (snd r)) ;;
     comprehension (fun item => lift (aggregated_parse_dict item)) items)
      st.
Proof.
  intros Hs Ha Hf Hft Hlimit.
  assert (Hf' : (0 <? f)%Z = true) by (apply Z.ltb_lt; lia).
  assert (Ht' : (0 <? t)%Z = true) by (apply Z.ltb_lt; lia).
  assert (Hft' : (t <? f)%Z = false) by (apply Z.ltb_ge; lia).
  unfold get_measurements.
  rewrite (is_not_none_true sid), (is_not_none_true agg) by assumption.
  unfold bind at 1 2 3 4 5 6 7; simpl.
  rewrite Hf', Ht', Hft'; simpl.
  destruct Hlimit as [->|(n & Hn & Hn0)]; [reflexivity|].
  destruct limit as [|b|z|q|s0]; try discriminate;
    unfold bind at 1 2; simpl; simpl in Hn; injection Hn as Hn;
    [by destruct b|].
  subst n. apply Z.leb_le in Hn0. by rewrite Hn0.
Qed.

(** C5.  [get_measurements] raises, with the state left as it was,
    whenever the end of the window is earlier than its beginning, or the
    station identifier, the granularity or one of the timestamps is
    [None], or a timestamp is not positive, or a limit is given that is
    not a non-negative integer; the exception is an [AssertionError] or
    a [ValueError].  In particular, when the other arguments pass their
    checks and the end is earlier than the beginning, it is the
    [ValueError] of the window. *)
Theorem get_measurements_rejects_invalid self (sid agg : pyval)
    (from_timestamp to_timestamp : option Z) (limit : pyval) st :
  ((sid = VNone \/ agg = VNone
    \/ from_timestamp = None \/ to_timestamp = None
    \/ (exists f, from_timestamp = Some f /\ (f <= 0)%Z)
    \/ (exists t, to_timestamp = Some t /\ (t <= 0)%Z)
    \/ (exists f t, from_timestamp = Some f /\ to_timestamp = Some t
                    /\ (t < f)%Z)
    \/ (limit <> VNone /\ ~ nonneg_int limit)) ->
   exists e,
     get_measurements self sid agg from_timestamp to_timestamp limit st
     = (Raise e, st)
     /\ (e = AssertionError None \/ exists msg, e = ValueError msg))
  /\
  (forall f t,
      sid <> VNone -> agg <> VNone ->
      from_timestamp = Some f -> to_timestamp = Some t ->
      (0 < t)%Z -> (t < f)%Z ->
      get_measurements self sid agg from_timestamp to_timestamp limit st
      = (Raise (ValueError
                  "End timestamp can't be earlier than begin timestamp"),
         st)).
Proof.
  split.
  - intros Hbad. unfold get_measurements.
    destruct (is_not_none sid) eqn:Es;
      [|unfold bind; simpl; eauto].
    destruct (is_not_none agg) eqn:Ea;
      [|unfold bind; simpl; eauto].
    destruct from_timestamp as [f|];
      [|unfold bind; simpl; eauto].
    destruct (0 <? f)%Z eqn:Ef;
      [|unfold bind; simpl; rewrite Ef; simpl; eauto].
    destruct to_timestamp as [t|];
      [|unfold bind; simpl; rewrite Ef; simpl; eauto].
    destruct (0 <? t)%Z eqn:Et;
      [|unfold bind; simpl; rewrite Ef; simpl; rewrite Et; simpl; eauto].
    destruct (t <? f)%Z eqn:Etf;
      [unfold bind; simpl; rewrite Ef; simpl; rewrite Et; simpl;
       rewrite Etf; simpl; eauto|].
    apply Z.ltb_lt in Ef, Et. apply Z.ltb_ge in Etf.
    destruct Hbad
      as [->|[->|[?|[?|[(f' & [= <-] & ?)|[(t' & [= <-] & ?)
         |[(f' & t' & [= <-] & [= <-] & ?)|[Hl Hneg]]]]]]]];
      try discriminate; try lia.
    assert (Hf' : (0 <? f)%Z = true) by (apply Z.ltb_lt; lia).
    assert (Ht' : (0 <? t)%Z = true) by (apply Z.ltb_lt; lia).
    assert (Hft' : (t <? f)%Z = false) by (apply Z.ltb_ge; lia).
    unfold bind at 1 2 3 4 5 6 7; simpl.
    rewrite Hf', Ht', Hft'; simpl.
    destruct limit as [|b|z|q|s0]; try congruence;
      unfold bind; simpl; eauto.
    + exfalso. apply Hneg. exists (if b then 1 else 0)%Z.
      split; [reflexivity|]. destruct b; lia.
    + destruct (0 <=? z)%Z eqn:Ez; [|eauto].
      exfalso. apply Hneg. exists z. split; [reflexivity|].
      by apply Z.leb_le.
  - intros f t Hs Ha -> -> Ht Htf.
    assert (Hf' : (0 <? f)%Z = true) by (apply Z.ltb_lt; lia).
    assert (Ht' : (0 <? t)%Z = true) by (apply Z.ltb_lt; lia).
    assert (Hft' : (t <? f)%Z = true) by (apply Z.ltb_lt; lia).
    unfold get_measurements.
    destruct sid; try congruence; destruct agg; try congruence;
      unfold bind; simpl; rewrite Hf'; simpl; rewrite Ht'; simpl;
      rewrite Hft'; reflexivity.
Qed.

(** C10.  [get_measurements] checks of the granularity only that it is
    not [None]: whatever other value it has, when the other arguments
    are valid the call sends its one GET request, whose [type]
    parameter is that value as it was given.  The value [None] is
    rejected before any request. *)
Theorem get_measurements_passes_granularity self (sid agg : pyval)
    (f t : Z) (limit : pyval) st :
  (agg <> VNone ->
   sid <> VNone -> (0 < f)%Z -> (f <= t)%Z ->
   limit = VNone \/ nonneg_int limit ->
   exists r,
     calls (snd (get_measurements self sid agg (Some f) (Some t) limit st))
     = calls st ++ [r]
     /\ meth r = GET /\ url r = measurements_url
     /\ params r !! "type" = Some agg)
  /\
  get_measurements self sid VNone (Some f) (Some t) limit st
  = (Raise (AssertionError None), st).
Proof.
  split.
  - intros Ha Hs Hf Hft Hlimit.
    rewrite get_measurements_checked by assumption.
    exists {| meth := GET; url := measurements_url;
              params := measurements_query self sid agg f t limit;
              data := None; headers := json_headers |}.
    split; [|split; [reflexivity|split; [reflexivity|]]].
    + unfold get_json. apply bind_calls_after; [apply http_calls|].
      intros a st'. unfold bind at 1, lift at 1.
      destruct (py_iter (snd a)) as [items|e]; [|reflexivity].
      by rewrite comprehension_lift_state.
    + simpl. unfold measurements_query.
      destruct (is_not_none limit);
        [rewrite lookup_insert_ne by done|];
        rewrite lookup_insert_ne by done;
        rewrite lookup_insert_ne by done;
        by rewrite lookup_insert_eq.
  - unfold get_measurements. destruct sid; reflexivity.
Qed.

(** ** Authentication of the requests *)

Section OnlyIssues.

Variable P : request -> Prop.

Lemma only_issues_ret {A} (a : A) : only_issues P (ret a).
Proof. intros st. exists []. by rewrite app_nil_r. Qed.

Lemma only_issues_raise {A} (e : exn) : only_issues P (@raise A e).
Proof. intros st. exists []. by rewrite app_nil_r. Qed.

Lemma only_issues_lift {A} (o : outcome A) : only_issues P (lift o).
Proof. intros st. exists []. by rewrite app_nil_r. Qed.

Lemma only_issues_assert (b : bool) : only_issues P (assert b).
Proof.
  destruct b; [apply only_issues_ret|apply only_issues_raise].
Qed.

Lemma only_issues_required {A} (x : option A) : only_issues P (required x).
Proof.
  destruct x; [apply only_issues_ret|apply only_issues_raise].
Qed.

Lemma only_issues_raise_if (b : bool) (e : exn) :
  only_issues P (raise_if b e).
Proof.
  destruct b; [apply only_issues_raise|apply only_issues_ret].
Qed.

Lemma only_issues_http (r : request) : P r -> only_issues P (http r).
Proof.
  intros Hr st. exists [r]. split; [apply http_calls|].
  by constructor.
Qed.

Lemma only_issues_bind {A B} (c : M A) (k : A -> M B) :
  only_issues P c -> (forall a, only_issues P (k a)) ->
  only_issues P (bind c k).
Proof.
  intros Hc Hk st. destruct (Hc st) as (l1 & Hl1 & HP1).
  unfold bind. destruct (c st) as [[a|e] st1]; simpl in Hl1.
  - destruct (Hk a st1) as (l2 & Hl2 & HP2).
    exists (l1 ++ l2). split.
    + by rewrite Hl2, Hl1, app_assoc.
    + by apply Forall_app.
  - by exists l1.
Qed.

Lemma only_issues_for_each {A} (body : A -> M unit) (l : list A) :
  (forall x, only_issues P (body x)) -> only_issues P (for_each body l).
Proof.
  intros Hbody. induction l as [|x l IH]; simpl.
  - apply only_issues_ret.
  - apply only_issues_bind; [apply Hbody|]. intros _. exact IH.
Qed.

Lemma only_issues_comprehension {A B} (f : A -> M B) (l : list A) :
  (forall x, only_issues P (f x)) -> only_issues P (comprehension f l).
Proof.
  intros Hf. induction l as [|x l IH]; simpl.
  - apply only_issues_ret.
  - apply only_issues_bind; [apply Hf|]. intros y.
    apply only_issues_bind; [exact IH|]. intros ys.
    apply only_issues_ret.
Qed.

End OnlyIssues.

Lemma auth_appid self : auth self !! "appid" = Some (VStr (API_key self)).
Proof. apply lookup_singleton_eq. Qed.

Lemma measurements_query_appid self (sid agg : pyval) (f t : Z)
    (limit : pyval) :
  measurements_query self sid agg f t limit !! "appid"
  = Some (VStr (API_key self)).
Proof.
  unfold measurements_query.
  destruct (is_not_none limit); [rewrite lookup_insert_ne by done|];
    apply lookup_insert_eq.
Qed.

Ltac issues :=
  repeat first
    [ apply only_issues_bind; [|intros]
    | apply only_issues_ret
    | apply only_issues_raise
    | apply only_issues_lift
    | apply only_issues_assert
    | apply only_issues_required
    | apply only_issues_raise_if
    | apply only_issues_for_each; intros
    | apply only_issues_comprehension; intros
    | apply only_issues_http;
      first [ apply auth_appid | apply measurements_query_appid ] ].

(** C9.  Every request that a public method of the manager hands to the
    HTTP client carries the API key of the manager as its [appid] query
    parameter: listing, fetching, creating, updating and deleting a
    station, sending one or many measurements, reading the aggregated
    measurements and sending a buffer. *)
Theorem every_request_carries_appid self :
  only_issues (authenticated self) (get_stations self)
  /\ (forall i, only_issues (authenticated self) (get_station self i))
  /\ (forall external_id name lat lon alt,
        only_issues (authenticated self)
          (create_station self external_id name lat lon alt))
  /\ (forall station,
        only_issues (authenticated self) (update_station self station))
  /\ (forall station,
        only_issues (authenticated self) (delete_station self station))
  /\ (forall measurement,
        only_issues (authenticated self) (send_measurement self measurement))
  /\ (forall list_of_measurements,
        only_issues (authenticated self)
          (send_measurements self list_of_measurements))
  /\ (forall sid agg from_timestamp to_timestamp limit,
        only_issues (authenticated self)
          (get_measurements self sid agg from_timestamp to_timestamp limit))
  /\ (forall buffer,
        only_issues (authenticated self) (send_buffer self buffer)).
Proof.
  repeat split; intros.
  - unfold get_stations, get_json. issues.
  - unfold get_station, get_json. issues.
  - unfold create_station, post. issues.
    match goal with
    | |- context [match ?a with Some _ => _ | None => _ end] => destruct a
    end; issues.
  - unfold update_station, put. issues.
  - unfold delete_station, delete. issues.
  - unfold send_measurement, post. issues.
  - unfold send_measurements, post. issues.
  - unfold get_measurements, get_json. issues.
    destruct (is_not_none limit); issues.
  - unfold send_buffer, post. issues.
Qed.

(** ** More of the manager

    The methods the properties above leave aside, and how the methods
    relate to each other. *)

Lemma http_bind_return {B} (r : request) (k : Z * json -> M B) st x w :
  transport r (world st) = (Return x, w) ->
  bind (http r) k st = k x {| world := w; calls := calls st ++ [r] |}.
Proof. intros Hw. unfold bind, http. by rewrite Hw. Qed.

Lemma http_bind_raise {B} (r : request) (k : Z * json -> M B) st e w :
  transport r (world st) = (Raise e, w) ->
  bind (http r) k st = (Raise e, {| world := w; calls := calls st ++ [r] |}).
Proof. intros Hw. unfold bind, http. by rewrite Hw. Qed.

(** X1.  [get_station] checks nothing: whatever the identifier, [None]
    included, it sends one GET on the URL that ends with [str(id)], and
    what it returns is what the parser makes of the body of the answer,
    whatever the status. *)
Theorem get_station_always_asks self (i : option string) st :
  calls (snd (get_station self i st))
  = calls st ++ [get_station_request self i]
  /\ (forall status body w,
        transport (get_station_request self i) (world st)
        = (Return (status, body), w) ->
        get_station self i st
        = (station_parse_dict body,
           {| world := w;
              calls := calls st ++ [get_station_request self i] |}))
  /\ url (get_station_request self None)
     = "http://api.openweathermap.org/data/3.0/stations/None".
Proof.
  split; [|split; [|reflexivity]].
  - unfold get_station, get_json. fold (get_station_request self i).
    apply bind_calls_after; [apply http_calls|]. intros; apply lift_calls.
  - intros status body w Hw. unfold get_station, get_json.
    fold (get_station_request self i).
    by rewrite (http_bind_return _ _ _ _ _ Hw).
Qed.

(** X2.  [send_measurement] refuses a measurement that is [None] or has no
    station identifier, with no request.  Any other measurement costs
    exactly one POST, whose body is the field map of the measurement,
    and the call returns [None] when the HTTP client answers. *)
Theorem send_measurement_cases self (measurement : option Measurement) st :
  (measurement = None
   \/ (exists m, measurement = Some m /\ station_id m = VNone) ->
   send_measurement self measurement st = (Raise (AssertionError None), st))
  /\
  (forall m,
      measurement = Some m -> station_id m <> VNone ->
      calls (snd (send_measurement self measurement st))
      = calls st ++ [measurement_post self m]
      /\ forall resp w,
          transport (measurement_post self m) (world st) = (Return resp, w) ->
          send_measurement self measurement st
          = (Return tt,
             {| world := w; calls := calls st ++ [measurement_post self m] |})).
Proof.
  split.
  - intros [->|(m & -> & Hm)]; [reflexivity|].
    unfold send_measurement, bind; simpl. by rewrite Hm.
  - intros m -> Hm. apply is_not_none_true in Hm.
    unfold send_measurement, post, measurement_post, bind, http; simpl.
    rewrite Hm; simpl. split.
    + destruct (transport _ (world st)) as [[r|e] w]; reflexivity.
    + intros resp w Hw. by rewrite Hw.
Qed.

(** X3.  Sending a list of one measurement is sending that measurement. *)
Theorem send_measurements_singleton self (m : Measurement) st :
  send_measurements self (Some [m]) st = send_measurement self (Some m) st.
Proof.
  unfold send_measurements, send_measurement, for_each.
  unfold bind at 1 2 5 6; simpl.
  destruct (is_not_none (station_id m)); [|reflexivity]. simpl.
  unfold bind, post, http.
  destruct (transport _ (world st)) as [[r|e] w]; reflexivity.
Qed.

(** X4.  On measurements that all have a station identifier,
    [send_measurements] and [send_buffer] do the same. *)
Theorem send_measurements_as_send_buffer self (l : list Measurement) st :
  forallb (fun m => is_not_none (station_id m)) l = true ->
  send_measurements self (Some l) st
  = send_buffer self (Some {| measurements := l |}) st.
Proof. intros Hall. by rewrite send_measurements_checked. Qed.

(** X5.  Sending a buffer made of two parts is sending the first part and
    then, if that call returned, the second one from the state it left;
    if the first call raised, that is the result. *)
Theorem send_buffer_app self (l1 l2 : list Measurement) st :
  send_buffer self (Some {| measurements := l1 ++ l2 |}) st
  = match send_buffer self (Some {| measurements := l1 |}) st with
    | (Return _, st1) => send_buffer self (Some {| measurements := l2 |}) st1
    | (Raise e, st1) => (Raise e, st1)
    end.
Proof. apply post_each_app. Qed.

(** *** Aggregated measurements, again *)

Lemma get_measurements_calls self (sid agg : pyval) (f t : Z)
    (limit : pyval) st :
  sid <> VNone -> agg <> VNone -> (0 < f)%Z -> (f <= t)%Z ->
  limit = VNone \/ nonneg_int limit ->
  calls (snd (get_measurements self sid agg (Some f) (Some t) limit st))
  = calls st ++ [get_measurements_request self sid agg f t limit].
Proof.
  intros Hs Ha Hf Hft Hlimit.
  rewrite get_measurements_checked by assumption.
  unfold get_json. fold (get_measurements_request self sid agg f t limit).
  apply bind_calls_after; [apply http_calls|].
  intros a st'. unfold bind at 1, lift at 1.
  destruct (py_iter (snd a)) as [items|e]; [|reflexivity].
  by rewrite comprehension_lift_state.
Qed.

Lemma get_measurements_refused self (sid agg : pyval)
    (from_timestamp to_timestamp : option Z) (limit : pyval) st :
  ~ measurements_args_ok sid agg from_timestamp to_timestamp limit ->
  (get_measurements self sid agg from_timestamp to_timestamp limit st
   = (Raise (ValueError window_message), st)
   /\ window_reversed sid agg from_timestamp to_timestamp)
  \/
  (get_measurements self sid agg from_timestamp to_timestamp limit st
   = (Raise (AssertionError None), st)
   /\ ~ window_reversed sid agg from_timestamp to_timestamp).
Proof.
  intros Hbad. unfold get_measurements, window_reversed.
  destruct (is_not_none sid) eqn:Es;
    [|right; split; [reflexivity|destruct sid; try discriminate; tauto]].
  destruct (is_not_none agg) eqn:Ea;
    [|right; split; [reflexivity|destruct agg; try discriminate; tauto]].
  assert (Hs : sid <> VNone) by (intros ->; discriminate).
  assert (Ha : agg <> VNone) by (intros ->; discriminate).
  destruct from_timestamp as [f|];
    [|right; split; [reflexivity|intros (_ & _ & ? & ? & ? & _); discriminate]].
  destruct (0 <? f)%Z eqn:Ef.
  2:{ right. split; [unfold bind; simpl; by rewrite Ef|].
      apply Z.ltb_ge in Ef.
      intros (_ & _ & f' & t' & [= <-] & _ & ? & ?). lia. }
  destruct to_timestamp as [t|];
    [|right; split; [unfold bind; simpl; by rewrite Ef
                    |intros (_ & _ & ? & ? & _ & ? & _); discriminate]].
  destruct (0 <? t)%Z eqn:Et.
  2:{ right. split; [unfold bind; simpl; rewrite Ef; simpl; by rewrite Et|].
      apply Z.ltb_ge in Et.
      intros (_ & _ & f' & t' & _ & [= <-] & ? & ?). lia. }
  destruct (t <? f)%Z eqn:Etf.
  { left. split.
    - unfold bind; simpl; rewrite Ef; simpl; rewrite Et; simpl.
      by rewrite Etf.
    - apply Z.ltb_lt in Et, Etf. split; [done|]. split; [done|].
      by exists f, t. }
  right. apply Z.ltb_lt in Ef. apply Z.ltb_ge in Etf.
  split; [|intros (_ & _ & f' & t' & [= <-] & [= <-] & ? & ?); lia].
  assert (Hf' : (0 <? f)%Z = true) by (apply Z.ltb_lt; lia).
  assert (Hft' : (t <? f)%Z = false) by (apply Z.ltb_ge; lia).
  unfold bind at 1 2 3 4 5 6 7; simpl.
  rewrite Hf', Et, Hft'; simpl.
  destruct limit as [|b|z|q|s0]; unfold bind; simpl; try reflexivity.
  - exfalso. apply Hbad. split; [done|]. split; [done|].
    split; [by exists f, t|]. by left.
  - exfalso. apply Hbad. split; [done|]. split; [done|].
    split; [by exists f, t|]. right. exists (if b then 1 else 0)%Z.
    split; [reflexivity|]. destruct b; lia.
  - destruct (0 <=? z)%Z eqn:Ez; [|reflexivity].
    exfalso. apply Hbad. split; [done|]. split; [done|].
    split; [by exists f, t|]. right. exists z.
    split; [reflexivity|]. by apply Z.leb_le.
Qed.

Lemma nonneg_int_dec (v : pyval) : nonneg_int v \/ ~ nonneg_int v.
Proof.
  destruct v as [|b|z|q|s0];
    try (right; intros (n & Hn & _); discriminate).
  - left. exists (if b then 1 else 0)%Z. split; [reflexivity|].
    destruct b; lia.
  - destruct (Z_le_gt_dec 0 z) as [Hz|Hz].
    + left. by exists z.
    + right. intros (n & [= <-] & Hn). lia.
Qed.

Lemma measurements_args_ok_dec (sid agg : pyval)
    (from_timestamp to_timestamp : option Z) (limit : pyval) :
  measurements_args_ok sid agg from_timestamp to_timestamp limit
  \/ ~ measurements_args_ok sid agg from_timestamp to_timestamp limit.
Proof.
  unfold measurements_args_ok.
  destruct (is_not_none sid) eqn:Es;
    [|right; intros (H & _); destruct sid; try discriminate; by apply H].
  destruct (is_not_none agg) eqn:Ea;
    [|right; intros (_ & H & _); destruct agg; try discriminate; by apply H].
  destruct from_timestamp as [f|];
    [|right; intros (_ & _ & (? & ? & ? & _) & _); discriminate].
  destruct to_timestamp as [t|];
    [|right; intros (_ & _ & (? & ? & _ & ? & _) & _); discriminate].
  destruct (Z_lt_le_dec 0 f) as [Hf|Hf];
    [|right; intros (_ & _ & (? & ? & [= <-] & _ & ? & _) & _); lia].
  destruct (Z_le_gt_dec f t) as [Hft|Hft];
    [|right; intros (_ & _ & (? & ? & [= <-] & [= <-] & _ & ?) & _); lia].
  assert (Hl : limit = VNone \/ ~ limit = VNone)
    by (destruct limit; (by left) || (by right)).
  destruct Hl as [Hl|Hl].
  - left. split; [by intros ->|]. split; [by intros ->|].
    split; [by exists f, t|]. by left.
  - destruct (nonneg_int_dec limit) as [Hn|Hn].
    + left. split; [by intros ->|]. split; [by intros ->|].
      split; [by exists f, t|]. by right.
    + right. intros (_ & _ & _ & [?|?]); contradiction.
Qed.

(** X6.  [get_measurements] sends a request exactly when its arguments pass
    all the checks: then it sends one GET; otherwise it raises an
    [AssertionError] or the [ValueError] of the window and the state is
    left as it was.  A window whose two ends are equal passes. *)
Theorem get_measurements_asks_iff_valid self (sid agg : pyval)
    (from_timestamp to_timestamp : option Z) (limit : pyval) st :
  (measurements_args_ok sid agg from_timestamp to_timestamp limit ->
   exists f t,
     from_timestamp = Some f /\ to_timestamp = Some t
     /\ calls (snd (get_measurements self sid agg from_timestamp
                      to_timestamp limit st))
        = calls st ++ [get_measurements_request self sid agg f t limit])
  /\
  (~ measurements_args_ok sid agg from_timestamp to_timestamp limit ->
   exists e,
     get_measurements self sid agg from_timestamp to_timestamp limit st
     = (Raise e, st)
     /\ (e = AssertionError None \/ e = ValueError window_message)).
Proof.
  split.
  - intros (Hs & Ha & (f & t & -> & -> & Hf & Hft) & Hlimit).
    exists f, t. split; [done|]. split; [done|].
    by apply get_measurements_calls.
  - intros Hbad.
    destruct (get_measurements_refused self sid agg from_timestamp
                to_timestamp limit st Hbad) as [[Hrun _]|[Hrun _]];
      eexists; (split; [exact Hrun|]); [by right|by left].
Qed.

(** X7.  The [ValueError] of the window is raised, before any request,
    exactly when the station identifier and the granularity are given,
    the end of the window is positive and it is earlier than the
    beginning. *)
Theorem get_measurements_window_error_iff self (sid agg : pyval)
    (from_timestamp to_timestamp : option Z) (limit : pyval) st :
  get_measurements self sid agg from_timestamp to_timestamp limit st
  = (Raise (ValueError window_message), st)
  <-> window_reversed sid agg from_timestamp to_timestamp.
Proof.
  split.
  - intros Hrun.
    destruct (measurements_args_ok_dec sid agg from_timestamp to_timestamp
                limit)
      as [Hok|Hbad].
    + exfalso.
      destruct Hok as (Hs & Ha & (f & t & -> & -> & Hf & Hft) & Hlimit).
      pose proof (get_measurements_calls self sid agg f t limit st
                    Hs Ha Hf Hft Hlimit) as Hcalls.
      rewrite Hrun in Hcalls. simpl in Hcalls.
      apply (f_equal length) in Hcalls.
      rewrite length_app in Hcalls. simpl in Hcalls. lia.
    + destruct (get_measurements_refused self sid agg from_timestamp
                  to_timestamp limit st Hbad) as [[_ Hw]|[Hrun' _]];
        [exact Hw|congruence].
  - intros Hw.
    assert (Hbad : ~ measurements_args_ok sid agg from_timestamp
                     to_timestamp limit).
    { destruct Hw as (_ & _ & f & t & -> & -> & ? & ?).
      intros (_ & _ & (f' & t' & [= <-] & [= <-] & ? & ?) & _). lia. }
    destruct (get_measurements_refused self sid agg from_timestamp
                to_timestamp limit st Hbad) as [[Hrun _]|[_ Hnw]];
      [exact Hrun|contradiction].
Qed.

(** X8.  The query of a valid call of [get_measurements] holds the station
    identifier, the two timestamps and, only when a limit is given, the
    limit; it has no other parameter than these, [appid] and [type], and
    the request has no body. *)
Theorem get_measurements_query_parameters self (sid agg : pyval) (f t : Z)
    (limit : pyval) st :
  measurements_args_ok sid agg (Some f) (Some t) limit ->
  exists r,
    calls (snd (get_measurements self sid agg (Some f) (Some t) limit st))
    = calls st ++ [r]
    /\ params r !! "station_id" = Some sid
    /\ params r !! "from" = Some (VInt f)
    /\ params r !! "to" = Some (VInt t)
    /\ params r !! "limit" = (if is_not_none limit then Some limit else None)
    /\ data r = None
    /\ forall k, params r !! k <> None ->
                 In k ["appid"; "station_id"; "type"; "from"; "to"; "limit"].
Proof.
  intros (Hs & Ha & (f' & t' & [= <-] & [= <-] & Hf & Hft) & Hlimit).
  exists (get_measurements_request self sid agg f t limit).
  split; [by apply get_measurements_calls|].
  simpl. unfold measurements_query.
  destruct (is_not_none limit); repeat split;
    try (by repeat (rewrite lookup_insert; case_decide; try done));
    intros k Hk;
    repeat (rewrite lookup_insert in Hk; case_decide;
            [subst k; simpl; tauto|]);
    by rewrite lookup_empty in Hk.
Qed.

Lemma get_measurements_on_list self (sid agg : pyval) (f t : Z)
    (limit : pyval) st (status : Z) (items : list json) (w : World) :
  measurements_args_ok sid agg (Some f) (Some t) limit ->
  transport (get_measurements_request self sid agg f t limit) (world st)
  = (Return (status, JList items), w) ->
  get_measurements self sid agg (Some f) (Some t) limit st
  = comprehension (fun item => lift (aggregated_parse_dict item)) items
      {| world := w;
         calls := calls st
                  ++ [get_measurements_request self sid agg f t limit] |}.
Proof.
  intros (Hs & Ha & (f' & t' & [= <-] & [= <-] & Hf & Hft) & Hlimit) Hw.
  rewrite get_measurements_checked by assumption.
  unfold get_json. fold (get_measurements_request self sid agg f t limit).
  by rewrite (http_bind_return _ _ _ _ _ Hw).
Qed.

(** X9.  When the HTTP client answers a valid call of [get_measurements] with
    a list, the list the call returns holds the parsed items, as many as
    the answer has and in its order; the call does return when the parser
    reads every item. *)
Theorem get_measurements_parses_each_item self (sid agg : pyval) (f t : Z)
    (limit : pyval) st (status : Z) (items : list json) (w : World) :
  measurements_args_ok sid agg (Some f) (Some t) limit ->
  transport (get_measurements_request self sid agg f t limit) (world st)
  = (Return (status, JList items), w) ->
  (forall ms st',
      get_measurements self sid agg (Some f) (Some t) limit st
      = (Return ms, st') ->
      length ms = length items
      /\ Forall2 (fun item m => aggregated_parse_dict item = Return m)
           items ms)
  /\
  ((forall item, In item items ->
                 exists m, aggregated_parse_dict item = Return m) ->
   exists ms,
     get_measurements self sid agg (Some f) (Some t) limit st
     = (Return ms,
        {| world := w;
           calls := calls st
                    ++ [get_measurements_request self sid agg f t limit] |})).
Proof.
  intros Hok Hw.
  rewrite (get_measurements_on_list self sid agg f t limit st status items w
             Hok Hw).
  split.
  - intros ms st' Hrun.
    pose proof (comprehension_lift_returns _ _ _ _ _ Hrun) as Hall.
    split; [symmetry; by eapply Forall2_length|exact Hall].
  - intros Hparse.
    destruct (comprehension_lift aggregated_parse_dict items
                {| world := w;
                   calls := calls st
                            ++ [get_measurements_request self sid agg f t
                                  limit] |} Hparse)
      as (ms & Hrun & _).
    by exists ms.
Qed.

(** *** Errors of the collaborators *)

Lemma comprehension_lift_fails {A B} (f : A -> outcome B) (l1 l2 : list A)
    (x : A) (e : exn) st :
  (forall y, In y l1 -> exists z, f y = Return z) ->
  f x = Raise e ->
  comprehension (fun y => lift (f y)) (l1 ++ x :: l2) st = (Raise e, st).
Proof.
  intros Hl1 Hx. induction l1 as [|y l1 IH]; simpl.
  - unfold bind at 1, lift at 1. by rewrite Hx.
  - destruct (Hl1 y) as [z Hz]; [by left|].
    unfold bind at 1, lift at 1. rewrite Hz. unfold bind at 1.
    rewrite IH; [reflexivity|]. intros; apply Hl1; by right.
Qed.

(** X10.  The first item of the answer that the parser refuses decides the
    result of [get_stations] and of [get_measurements]: the exception of
    the parser is raised as it is, after the one request was sent. *)
Theorem parser_error_propagates self st (status : Z) (l1 l2 : list json)
    (x : json) (e : exn) (w : World) :
  (transport (get_stations_request self) (world st)
   = (Return (status, JList (l1 ++ x :: l2)), w) ->
   (forall y, In y l1 -> exists z, station_parse_dict y = Return z) ->
   station_parse_dict x = Raise e ->
   get_stations self st
   = (Raise e,
      {| world := w; calls := calls st ++ [get_stations_request self] |}))
  /\
  (forall sid agg f t limit,
      measurements_args_ok sid agg (Some f) (Some t) limit ->
      transport (get_measurements_request self sid agg f t limit) (world st)
      = (Return (status, JList (l1 ++ x :: l2)), w) ->
      (forall y, In y l1 -> exists z, aggregated_parse_dict y = Return z) ->
      aggregated_parse_dict x = Raise e ->
      get_measurements self sid agg (Some f) (Some t) limit st
      = (Raise e,
         {| world := w;
            calls := calls st
                     ++ [get_measurements_request self sid agg f t limit] |})).
Proof.
  split.
  - intros Hw Hl1 Hx.
    rewrite (get_stations_on_list self st status _ w Hw).
    by apply comprehension_lift_fails.
  - intros sid agg f t limit Hok Hw Hl1 Hx.
    rewrite (get_measurements_on_list self sid agg f t limit st status _ w
               Hok Hw).
    by apply comprehension_lift_fails.
Qed.

(** *** Creation of a station, again *)

Lemma create_station_checked self (external_id name : pyval)
    (lat lon alt : option number) st :
  station_args_ok external_id name lat lon alt ->
  exists la lo,
    lat = Some la /\ lon = Some lo
    /\ create_station self external_id name lat lon alt st
       = (r <- http (create_station_request self external_id name la lo alt) ;;
          lift (station_parse_dict (snd r))) st.
Proof.
  intros (He & Hn & (la & lo & -> & -> & Hlo & Hla) & Ha).
  exists la, lo. split; [done|]. split; [done|].
  rewrite (create_station_given self external_id name la lo alt st He Hn).
  apply not_outside_bool in Hlo, Hla. rewrite Hlo, Hla.
  destruct alt as [a|]; [|reflexivity]. by rewrite (Ha a eq_refl).
Qed.

(** X11.  [create_station] reports the first check that fails, in the
    order longitude, latitude, altitude.  With the state left as it was,
    the error of the longitude is raised exactly when the four required
    arguments are given and [lon < -180 or lon > 180]; the error of the
    latitude exactly when moreover the check of the longitude passes
    (a NaN longitude passes it) and [lat < -90 or lat > 90]; the error
    of the altitude exactly when the checks of the two coordinates pass
    and the altitude is given and [alt < 0]. *)
Theorem create_station_error_order self (external_id name : pyval)
    (lat lon alt : option number) st :
  (create_station self external_id name lat lon alt st
   = (Raise (ValueError lon_message), st)
   <-> required_given external_id name lat lon
       /\ exists x, lon = Some x /\ outside x (-180) 180)
  /\
  (create_station self external_id name lat lon alt st
   = (Raise (ValueError lat_message), st)
   <-> required_given external_id name lat lon
       /\ exists x y, lon = Some x /\ lat = Some y
                      /\ ~ outside x (-180) 180 /\ outside y (-90) 90)
  /\
  (create_station self external_id name lat lon alt st
   = (Raise (ValueError alt_message), st)
   <-> required_given external_id name lat lon
       /\ exists x y a, lon = Some x /\ lat = Some y /\ alt = Some a
                        /\ ~ outside x (-180) 180 /\ ~ outside y (-90) 90
                        /\ num_ltb a 0 = true).
Proof.
  unfold required_given.
  destruct (create_station_outcome self external_id name lat lon alt st)
    as [[Hmiss Hrun]
       |(la & lo & He & Hn & -> & -> &
         [[Hlo Hrun]|[(Hlo & Hla & Hrun)|[(Hlo & Hla & Ha & Hrun)
         |(Hlo & Hla & Ha & Hrun)]]])];
    rewrite Hrun; unfold lon_message, lat_message, alt_message.
  - repeat split; try discriminate;
      intros ((H1 & H2 & H3 & H4) & _);
      destruct Hmiss as [?|[?|[?|?]]]; contradiction.
  - split; [|split].
    + split; [intros _|done]. split; [done|]. by exists lo.
    + split; [discriminate|].
      intros (_ & x & y & [= <-] & _ & Hx & _). contradiction.
    + split; [discriminate|].
      intros (_ & x & y & a & [= <-] & _ & _ & Hx & _). contradiction.
  - split; [|split].
    + split; [discriminate|].
      intros (_ & x & [= <-] & Hx). contradiction.
    + split; [intros _|done]. split; [done|]. by exists lo, la.
    + split; [discriminate|].
      intros (_ & x & y & a & _ & [= <-] & _ & _ & Hy & _). contradiction.
  - destruct Ha as (a & -> & Ha). split; [|split].
    + split; [discriminate|].
      intros (_ & x & [= <-] & Hx). contradiction.
    + split; [discriminate|].
      intros (_ & x & y & _ & [= <-] & _ & Hy). contradiction.
    + split; [intros _|done]. split; [done|]. by exists lo, la, a.
  - split; [|split].
    + split; [intros Heq; by apply request_changes_state in Heq|].
      intros (_ & x & [= <-] & Hx). contradiction.
    + split; [intros Heq; by apply request_changes_state in Heq|].
      intros (_ & x & y & _ & [= <-] & _ & Hy). contradiction.
    + split; [intros Heq; by apply request_changes_state in Heq|].
      intros (_ & x & y & a & _ & _ & Halt & _ & _ & Ha').
      rewrite (Ha a Halt) in Ha'. discriminate.
Qed.

(** X12.  [create_station] sends a request exactly when none of its
    checks fails: the four required arguments are given, the longitude
    is neither below -180 nor above 180, the latitude neither below -90
    nor above 90, and the altitude is [None] or not below 0.  A NaN
    fails none of the comparisons, so it passes.  Then the call sends
    one POST whose body holds the five fields as they were given, an
    [int] as an [int], and the altitude as [None] when it was not
    given.  Otherwise the call raises the [AssertionError] of a missing
    argument or one of the three range errors, and the state is left as
    it was. *)
Theorem create_station_asks_iff_valid self (external_id name : pyval)
    (lat lon alt : option number) st :
  (station_args_ok external_id name lat lon alt ->
   exists la lo r body,
     lat = Some la /\ lon = Some lo
     /\ calls (snd (create_station self external_id name lat lon alt st))
        = calls st ++ [r]
     /\ meth r = POST /\ url r = stations_url /\ data r = Some body
     /\ body !! "external_id" = Some external_id
     /\ body !! "name" = Some name
     /\ body !! "lat" = Some (of_number la)
     /\ body !! "lon" = Some (of_number lo)
     /\ body !! "alt" = Some (of_num alt))
  /\
  (~ station_args_ok external_id name lat lon alt ->
   exists e,
     create_station self external_id name lat lon alt st = (Raise e, st)
     /\ (e = AssertionError None \/ e = ValueError lon_message
         \/ e = ValueError lat_message \/ e = ValueError alt_message)).
Proof.
  split.
  - intros Hok.
    destruct (create_station_checked self external_id name lat lon alt st Hok)
      as (la & lo & -> & -> & Hrun).
    exists la, lo, (create_station_request self external_id name la lo alt).
    eexists. split; [done|]. split; [done|]. split.
    { rewrite Hrun. apply request_calls. }
    split; [done|]. split; [done|]. split; [reflexivity|].
    unfold station_body.
    repeat split; by repeat (rewrite lookup_insert; case_decide; try done).
  - intros Hbad.
    destruct (create_station_outcome self external_id name lat lon alt st)
      as [[Hmiss Hrun]
         |(la & lo & He & Hn & -> & -> &
           [[Hlo Hrun]|[(Hlo & Hla & Hrun)|[(Hlo & Hla & Ha & Hrun)
           |(Hlo & Hla & Ha & Hrun)]]])];
      [eexists; split; [exact Hrun|tauto]..|].
    exfalso. apply Hbad. split; [done|]. split; [done|].
    split; [by exists la, lo|done].
Qed.

(** X13.  What a valid call of [create_station] returns is what the parser
    makes of the body of the answer, whatever its status; the arguments
    of the call play no part in it. *)
Theorem create_station_returns_parsed_answer self (external_id name : pyval)
    (la lo : number) (alt : option number) st (status : Z) (payload : json)
    (w : World) :
  station_args_ok external_id name (Some la) (Some lo) alt ->
  transport (create_station_request self external_id name la lo alt)
    (world st)
  = (Return (status, payload), w) ->
  create_station self external_id name (Some la) (Some lo) alt st
  = (station_parse_dict payload,
     {| world := w;
        calls := calls st
                 ++ [create_station_request self external_id name la lo
                       alt] |}).
Proof.
  intros Hok Hw.
  destruct (create_station_checked self external_id name _ _ alt st Hok)
    as (la' & lo' & [= <-] & [= <-] & Hrun).
  rewrite Hrun. by rewrite (http_bind_return _ _ _ _ _ Hw).
Qed.

(** X14.  When the HTTP client raises on the one request of a method, the
    method raises that very exception: nothing is caught, retried or
    wrapped, and the log holds the request that failed. *)
Theorem transport_error_propagates self st (e : exn) (w : World) :
  (transport (get_stations_request self) (world st) = (Raise e, w) ->
   get_stations self st
   = (Raise e,
      {| world := w; calls := calls st ++ [get_stations_request self] |}))
  /\
  (forall i,
      transport (get_station_request self i) (world st) = (Raise e, w) ->
      get_station self i st
      = (Raise e,
         {| world := w; calls := calls st ++ [get_station_request self i] |}))
  /\
  (forall external_id name la lo alt,
      station_args_ok external_id name (Some la) (Some lo) alt ->
      transport (create_station_request self external_id name la lo alt)
        (world st) = (Raise e, w) ->
      create_station self external_id name (Some la) (Some lo) alt st
      = (Raise e,
         {| world := w;
            calls := calls st
                     ++ [create_station_request self external_id name la lo
                           alt] |}))
  /\
  (forall station i,
      id station = Some i ->
      transport (update_station_request self station) (world st)
      = (Raise e, w) ->
      update_station self station st
      = (Raise e,
         {| world := w;
            calls := calls st ++ [update_station_request self station] |}))
  /\
  (forall station i,
      id station = Some i ->
      transport (delete_station_request self station) (world st)
      = (Raise e, w) ->
      delete_station self station st
      = (Raise e,
         {| world := w;
            calls := calls st ++ [delete_station_request self station] |}))
  /\
  (forall m,
      station_id m <> VNone ->
      transport (measurement_post self m) (world st) = (Raise e, w) ->
      send_measurement self (Some m) st
      = (Raise e,
         {| world := w; calls := calls st ++ [measurement_post self m] |}))
  /\
  (forall sid agg f t limit,
      measurements_args_ok sid agg (Some f) (Some t) limit ->
      transport (get_measurements_request self sid agg f t limit) (world st)
      = (Raise e, w) ->
      get_measurements self sid agg (Some f) (Some t) limit st
      = (Raise e,
         {| world := w;
            calls := calls st
                     ++ [get_measurements_request self sid agg f t limit] |})).
Proof.
  repeat split.
  - intros Hw. unfold get_stations, get_json.
    fold (get_stations_request self).
    by rewrite (http_bind_raise _ _ _ _ _ Hw).
  - intros i Hw. unfold get_station, get_json.
    fold (get_station_request self i).
    by rewrite (http_bind_raise _ _ _ _ _ Hw).
  - intros external_id name la lo alt Hok Hw.
    destruct (create_station_checked self external_id name _ _ alt st Hok)
      as (la' & lo' & [= <-] & [= <-] & Hrun).
    rewrite Hrun. by rewrite (http_bind_raise _ _ _ _ _ Hw).
  - intros station i Hid Hw.
    unfold update_station, put, update_station_request, bind, http in *.
    rewrite Hid in Hw |- *; simpl. by rewrite Hw.
  - intros station i Hid Hw.
    unfold delete_station, delete, delete_station_request, bind, http in *.
    rewrite Hid in Hw |- *; simpl. by rewrite Hw.
  - intros m Hm Hw. apply is_not_none_true in Hm.
    unfold send_measurement, post, measurement_post, bind, http in *; simpl.
    rewrite Hm; simpl. by rewrite Hw.
  - intros sid agg f t limit
      (Hs & Ha & (f' & t' & [= <-] & [= <-] & Hf & Hft) & Hlimit) Hw.
    rewrite get_measurements_checked by assumption.
    unfold get_json. fold (get_measurements_request self sid agg f t limit).
    by rewrite (http_bind_raise _ _ _ _ _ Hw).
Qed.

(** *** Update and deletion, again *)

(** X15.  For a station that has an identifier, [update_station] sends the
    five other fields of the station as they are, without any check of
    the coordinates, to the URL that ends with the identifier, and the
    body does not hold the identifier; [delete_station] sends no body. *)
Theorem update_and_delete_requests self (station : Station) (i : string) st :
  id station = Some i ->
  (exists r body,
      calls (snd (update_station self station st)) = calls st ++ [r]
      /\ url r = "http://api.openweathermap.org/data/3.0/stations/" +:+ i
      /\ data r = Some body
      /\ body !! "external_id" = Some (external_id station)
      /\ body !! "name" = Some (name station)
      /\ body !! "lat" = Some (lat station)
      /\ body !! "lon" = Some (lon station)
      /\ body !! "alt" = Some (alt station)
      /\ body !! "id" = None)
  /\
  (exists r,
      calls (snd (delete_station self station st)) = calls st ++ [r]
      /\ url r = "http://api.openweathermap.org/data/3.0/stations/" +:+ i
      /\ data r = None).
Proof.
  intros Hid. split.
  - exists (update_station_request self station). eexists.
    split; [|split; [|split; [reflexivity|]]].
    + unfold update_station, put, update_station_request, bind, http.
      rewrite Hid; simpl.
      destruct (transport _ (world st)) as [[r|e] w]; reflexivity.
    + simpl. by rewrite Hid.
    + unfold station_body.
      repeat split; by repeat (rewrite lookup_insert; case_decide; try done).
  - exists (delete_station_request self station).
    split; [|split; [|reflexivity]].
    + unfold delete_station, delete, delete_station_request, bind, http.
      rewrite Hid; simpl.
      destruct (transport _ (world st)) as [[r|e] w]; reflexivity.
    + simpl. by rewrite Hid.
Qed.

(** *** Methods, endpoints and headers *)

Ltac issues_by tac :=
  repeat first
    [ apply only_issues_bind; [|intros]
    | apply only_issues_ret
    | apply only_issues_raise
    | apply only_issues_lift
    | apply only_issues_assert
    | apply only_issues_required
    | apply only_issues_raise_if
    | apply only_issues_for_each; intros
    | apply only_issues_comprehension; intros
    | apply only_issues_http; tac ].

(** X16.  Every request of every public method carries the header
    [Content-Type: application/json]. *)
Theorem every_request_is_json self :
  let json_typed (r : request) :=
    headers r !! "Content-Type" = Some "application/json" in
  only_issues json_typed (get_stations self)
  /\ (forall i, only_issues json_typed (get_station self i))
  /\ (forall external_id name lat lon alt,
        only_issues json_typed
          (create_station self external_id name lat lon alt))
  /\ (forall station, only_issues json_typed (update_station self station))
  /\ (forall station, only_issues json_typed (delete_station self station))
  /\ (forall measurement,
        only_issues json_typed (send_measurement self measurement))
  /\ (forall list_of_measurements,
        only_issues json_typed (send_measurements self list_of_measurements))
  /\ (forall sid agg from_timestamp to_timestamp limit,
        only_issues json_typed
          (get_measurements self sid agg from_timestamp to_timestamp limit))
  /\ (forall buffer, only_issues json_typed (send_buffer self buffer)).
Proof.
  intros json_typed.
  assert (Hh : json_headers !! "Content-Type" = Some "application/json")
    by apply lookup_singleton_eq.
  repeat split; intros.
  - unfold get_stations, get_json. issues_by ltac:(exact Hh).
  - unfold get_station, get_json. issues_by ltac:(exact Hh).
  - unfold create_station, post. issues_by ltac:(exact Hh).
    match goal with
    | |- context [match ?a with Some _ => _ | None => _ end] => destruct a
    end; issues_by ltac:(exact Hh).
  - unfold update_station, put. issues_by ltac:(exact Hh).
  - unfold delete_station, delete. issues_by ltac:(exact Hh).
  - unfold send_measurement, post. issues_by ltac:(exact Hh).
  - unfold send_measurements, post. issues_by ltac:(exact Hh).
  - unfold get_measurements, get_json. issues_by ltac:(exact Hh).
    destruct (is_not_none limit); issues_by ltac:(exact Hh).
  - unfold send_buffer, post. issues_by ltac:(exact Hh).
Qed.

(** X17.  Each method talks to its own endpoint: the three readers only send
    GET requests without a body, to the stations for [get_stations] and
    to the measurements for [get_measurements]; the three senders of
    measurements only POST a body to the measurements; [create_station]
    only POSTs to the stations, [update_station] only PUTs a body and
    [delete_station] only sends DELETE requests without a body. *)
Theorem methods_and_endpoints self :
  only_issues
    (fun r => meth r = GET /\ url r = stations_url /\ data r = None)
    (get_stations self)
  /\ (forall i,
        only_issues
          (fun r => meth r = GET /\ url r = station_url i /\ data r = None)
          (get_station self i))
  /\ (forall sid agg from_timestamp to_timestamp limit,
        only_issues
          (fun r => meth r = GET /\ url r = measurements_url
                    /\ data r = None)
          (get_measurements self sid agg from_timestamp to_timestamp limit))
  /\ (forall external_id name lat lon alt,
        only_issues
          (fun r => meth r = POST /\ url r = stations_url
                    /\ is_Some (data r))
          (create_station self external_id name lat lon alt))
  /\ (forall station,
        only_issues
          (fun r => meth r = PUT /\ url r = station_url (id station)
                    /\ is_Some (data r))
          (update_station self station))
  /\ (forall station,
        only_issues
          (fun r => meth r = DELETE /\ url r = station_url (id station)
                    /\ data r = None)
          (delete_station self station))
  /\ (forall measurement,
        only_issues
          (fun r => meth r = POST /\ url r = measurements_url
                    /\ is_Some (data r))
          (send_measurement self measurement))
  /\ (forall list_of_measurements,
        only_issues
          (fun r => meth r = POST /\ url r = measurements_url
                    /\ is_Some (data r))
          (send_measurements self list_of_measurements))
  /\ (forall buffer,
        only_issues
          (fun r => meth r = POST /\ url r = measurements_url
                    /\ is_Some (data r))
          (send_buffer self buffer)).
Proof.
  repeat split; intros.
  - unfold get_stations, get_json. issues_by ltac:(by simpl).
  - unfold get_station, get_json. issues_by ltac:(by simpl).
  - unfold get_measurements, get_json. issues_by ltac:(by simpl).
    destruct (is_not_none limit); issues_by ltac:(by simpl).
  - unfold create_station, post. issues_by ltac:(by simpl; eauto).
    match goal with
    | |- context [match ?a with Some _ => _ | None => _ end] => destruct a
    end; issues_by ltac:(by simpl; eauto).
  - unfold update_station, put. issues_by ltac:(by simpl; eauto).
  - unfold delete_station, delete. issues_by ltac:(by simpl).
  - unfold send_measurement, post. issues_by ltac:(by simpl; eauto).
  - unfold send_measurements, post. issues_by ltac:(by simpl; eauto).
  - unfold send_buffer, post. issues_by ltac:(by simpl; eauto).
Qed.

End Manager.

(** ** The two batch operations compared *)

Lemma post_each_ext {World Measurement : Type}
    (transport : request -> World -> outcome (Z * json) * World)
    (fields fields' : ToFieldMap Measurement) (self : StationsManager) :
  (forall x, @to_dict _ fields' x = @to_dict _ fields x) ->
  forall (l : list Measurement) (st : state),
    @post_each _ transport _ fields' self l st
    = @post_each _ transport _ fields self l st.
Proof.
  intros Hd l. induction l as [|x l IH]; intros st; [reflexivity|].
  rewrite !post_each_cons. unfold measurement_post. rewrite Hd.
  destruct (transport _ (world st)) as [[r|e] w]; [apply IH|reflexivity].
Qed.

(** C4.  [send_buffer] does not look at the station identifier of the
    measurements it posts.  For a buffer that contains a measurement
    whose [station_id] is [None], the call still reaches the HTTP client:
    the log grows by at least one POST, and when the call returns the
    post of that very measurement is in the log.  What [send_buffer]
    does is the same for any two measurement interfaces with the same
    field maps, whatever their station identifiers.  On the same
    measurements [send_measurements] raises an [AssertionError] before
    any request. *)
Theorem send_buffer_skips_station_id_check {World Measurement : Type}
    (transport : request -> World -> outcome (Z * json) * World)
    (fields : ToFieldMap Measurement) (self : StationsManager)
    (buffer : Buffer Measurement) (m : Measurement) (st : state) :
  In m (measurements buffer) -> station_id m = VNone ->
  (exists r rest,
      calls (snd (send_buffer transport self (Some buffer) st))
      = calls st ++ r :: rest
      /\ meth r = POST /\ url r = measurements_url)
  /\ (forall st',
        send_buffer transport self (Some buffer) st = (Return tt, st') ->
        In (measurement_post self m) (calls st'))
  /\ (forall fields' : ToFieldMap Measurement,
        (forall x, @to_dict _ fields' x = @to_dict _ fields x) ->
        @send_buffer _ transport _ fields' self (Some buffer) st
        = @send_buffer _ transport _ fields self (Some buffer) st)
  /\ send_measurements transport self (Some (measurements buffer)) st
     = (Raise (AssertionError None), st).
Proof.
  intros Hin Hm. split; [|split; [|split]].
  - change (send_buffer transport self (Some buffer) st)
      with (post_each transport self (measurements buffer) st).
    destruct (measurements buffer) as [|x l]; [destruct Hin|].
    exists (measurement_post self x).
    rewrite post_each_cons.
    destruct (transport _ (world st)) as [[r|e] w].
    + destruct (post_each_prefix transport self l
                  {| world := w;
                     calls := calls st ++ [measurement_post self x] |})
        as (k & _ & Hk).
      eexists. split; [|done]. rewrite Hk. simpl.
      by rewrite <- app_assoc.
    + exists []. by split.
  - intros st' Hrun.
    change (send_buffer transport self (Some buffer) st)
      with (post_each transport self (measurements buffer) st) in Hrun.
    apply post_each_returns in Hrun. rewrite Hrun.
    apply in_or_app. right. by apply in_map.
  - intros fields' Hd. by apply post_each_ext.
  - apply send_measurements_missing_id. by exists m.
Qed.

(** ** The properties at work on the test doubles *)

Lemma create_station_range_checks_witness :
  (exists msg,
      create_station (ok_transport JNull) demo_station_parser demo_manager
        (VStr "ext") (VStr "roof") (Some (NFloat (Finite 100)))
        (Some (NInt 200)) (Some (NFloat (Finite (-1)))) (State 0%nat [])
      = (Raise (ValueError msg), State 0%nat []))
  /\ create_station (ok_transport JNull) demo_station_parser demo_manager
       (VStr "ext") (VStr "roof") (Some (NInt 90)) (Some (NInt 200)) None
       (State 0%nat [])
     <> (Raise (ValueError lat_message), State 0%nat [])
  /\ calls (snd (create_station (ok_transport (JStr "s1"))
                   demo_station_parser demo_manager (VStr "ext")
                   (VStr "roof") (Some (NInt 90))
                   (Some (NFloat (Finite (-180)))) (Some (NInt 0))
                   (State 0%nat [])))
     = [] ++ [create_station_request demo_manager (VStr "ext") (VStr "roof")
                (NInt 90) (NFloat (Finite (-180))) (Some (NInt 0))].
Proof.
  split; [|split].
  - apply (proj1 (proj2 (proj1 (create_station_range_checks
                                  (ok_transport JNull) demo_station_parser
                                  demo_manager (VStr "ext") (VStr "roof")
                                  (Some (NFloat (Finite 100)))
                                  (Some (NInt 200))
                                  (Some (NFloat (Finite (-1))))
                                  (State 0%nat []))
                           ltac:(left; exists (NInt 200); split;
                                 [reflexivity|right; reflexivity])))).
    repeat split; discriminate.
  - apply (proj1 (proj2 (proj2 (create_station_range_checks
                                  (ok_transport JNull) demo_station_parser
                                  demo_manager (VStr "ext") (VStr "roof")
                                  (Some (NInt 90)) (Some (NInt 200)) None
                                  (State 0%nat [])))) (NInt 90)).
    + reflexivity.
    + right. reflexivity.
  - apply (proj2 (proj2 (proj2 (proj2 (create_station_range_checks
                                         (ok_transport (JStr "s1"))
                                         demo_station_parser demo_manager
                                         (VStr "ext") (VStr "roof")
                                         (Some (NInt 90))
                                         (Some (NFloat (Finite (-180))))
                                         (Some (NInt 0))
                                         (State 0%nat [])))))
             (NFloat (Finite (-180))) (NInt 90) (NInt 0));
      try reflexivity; try discriminate.
    + left. reflexivity.
    + right. reflexivity.
Defined.

Lemma send_measurements_checks_up_front_witness :
  send_measurements (ok_transport JNull) demo_manager
    (Some [reading_a; reading_orphan; reading_b]) (State 0%nat [])
  = (Raise (AssertionError None), State 0%nat []).
Proof.
  apply (send_measurements_checks_up_front (ok_transport JNull) demo_manager
           [reading_a; reading_orphan; reading_b] (State 0%nat [])).
  exists reading_orphan. split; [right; left; reflexivity|reflexivity].
Defined.

Lemma send_buffer_posts_in_order_witness :
  calls (snd (send_buffer (ok_transport JNull) demo_manager
                (Some {| measurements := [reading_a; reading_b] |})
                (State 0%nat [])))
  = [] ++ map (measurement_post demo_manager) [reading_a; reading_b].
Proof.
  refine (proj1 (proj1 (proj2 (send_buffer_posts_in_order
                                 (ok_transport JNull) demo_manager
                                 {| measurements := [reading_a; reading_b] |}
                                 (State 0%nat []))) _ _)).
  vm_compute. reflexivity.
Defined.

Lemma send_buffer_skips_station_id_check_witness :
  exists r rest,
    calls (snd (send_buffer (ok_transport JNull) demo_manager
                  (Some {| measurements := [reading_a; reading_orphan] |})
                  (State 0%nat [])))
    = [] ++ r :: rest
    /\ meth r = POST /\ url r = measurements_url.
Proof.
  apply (send_buffer_skips_station_id_check (ok_transport JNull)
           reading_fields demo_manager
           {| measurements := [reading_a; reading_orphan] |}
           reading_orphan (State 0%nat [])).
  - right; left. reflexivity.
  - reflexivity.
Defined.

Lemma get_measurements_rejects_invalid_witness :
  (exists e,
      get_measurements (ok_transport JNull) demo_aggregated_parser
        demo_manager (VStr "st1") (VStr "h") (Some 1000%Z) (Some 2000%Z)
        (VInt (-1)) (State 0%nat [])
      = (Raise e, State 0%nat [])
      /\ (e = AssertionError None \/ exists msg, e = ValueError msg))
  /\ get_measurements (ok_transport JNull) demo_aggregated_parser
       demo_manager (VStr "st1") (VStr "h") (Some 2000%Z) (Some 1000%Z)
       VNone (State 0%nat [])
     = (Raise (ValueError
                 "End timestamp can't be earlier than begin timestamp"),
        State 0%nat []).
Proof.
  split.
  - apply (proj1 (get_measurements_rejects_invalid (ok_transport JNull)
                    demo_aggregated_parser demo_manager (VStr "st1")
                    (VStr "h") (Some 1000%Z) (Some 2000%Z) (VInt (-1))
                    (State 0%nat []))).
    do 7 right. split; [discriminate|].
    intros (z & Hz & Hz0). injection Hz as <-. lia.
  - apply (proj2 (get_measurements_rejects_invalid (ok_transport JNull)
                    demo_aggregated_parser demo_manager (VStr "st1")
                    (VStr "h") (Some 2000%Z) (Some 1000%Z) VNone
                    (State 0%nat [])) 2000%Z 1000%Z);
      [discriminate|discriminate|reflexivity|reflexivity|lia|lia].
Defined.

Lemma send_measurements_in_order_witness :
  send_measurements (flaky_transport 1) demo_manager
    (Some ([reading_a] ++ reading_b :: [reading_a])) (State 0%nat [])
  = (Raise (CollaboratorError "connection refused"),
     {| world := 2%nat;
        calls := [] ++ map (measurement_post demo_manager)
                         ([reading_a] ++ [reading_b]) |}).
Proof.
  assert (Hchecked : forallb (fun m => is_not_none (station_id m))
                       ([reading_a] ++ reading_b :: [reading_a]) = true)
    by reflexivity.
  apply (proj1 (proj2 (send_measurements_in_order (flaky_transport 1)
                         demo_manager
                         ([reading_a] ++ reading_b :: [reading_a])
                         (State 0%nat []) Hchecked))
           [reading_a] reading_b [reading_a]
           (State 1%nat [measurement_post demo_manager reading_a])).
  - reflexivity.
  - vm_compute. reflexivity.
  - reflexivity.
Defined.

Lemma update_and_delete_need_an_id_witness :
  (update_station (ok_transport JNull) demo_manager (demo_station None)
     (State 0%nat [])
   = (Raise (AssertionError None), State 0%nat [])
   /\ delete_station (ok_transport JNull) demo_manager (demo_station None)
        (State 0%nat [])
      = (Raise (AssertionError None), State 0%nat []))
  /\ exists r,
      meth r = DELETE /\ url r = station_url (Some "s1")
      /\ calls (snd (delete_station (ok_transport JNull) demo_manager
                       (demo_station (Some "s1")) (State 0%nat [])))
         = [] ++ [r]
      /\ forall resp w,
          ok_transport JNull r 0%nat = (Return resp, w) ->
          delete_station (ok_transport JNull) demo_manager
            (demo_station (Some "s1")) (State 0%nat [])
          = (Return tt, {| world := w; calls := [] ++ [r] |}).
Proof.
  split.
  - apply (proj1 (update_and_delete_need_an_id (ok_transport JNull)
                    demo_manager (demo_station None) (State 0%nat []))).
    reflexivity.
  - apply (proj2 (update_and_delete_need_an_id (ok_transport JNull)
                    demo_manager (demo_station (Some "s1"))
                    (State 0%nat [])) "s1").
    reflexivity.
Defined.

Lemma get_stations_parses_each_item_witness :
  exists stations,
    get_stations (ok_transport (JList [JStr "s1"; JStr "s2"]))
      demo_station_parser demo_manager (State 0%nat [])
    = (Return stations,
       {| world := 1%nat; calls := [] ++ [get_stations_request demo_manager] |}).
Proof.
  apply (proj2 (get_stations_parses_each_item
                  (ok_transport (JList [JStr "s1"; JStr "s2"]))
                  demo_station_parser demo_manager (State 0%nat []) 200%Z
                  [JStr "s1"; JStr "s2"] 1%nat eq_refl)).
  intros item [<-|[<-|[]]]; eexists; reflexivity.
Defined.

Lemma get_measurements_passes_granularity_witness :
  exists r,
    calls (snd (get_measurements (ok_transport (JList [JNum 3]))
                  demo_aggregated_parser demo_manager (VStr "st1")
                  (VStr "fortnight") (Some 1000%Z) (Some 2000%Z) (VInt 5)
                  (State 0%nat [])))
    = [] ++ [r]
    /\ meth r = GET /\ url r = measurements_url
    /\ params r !! "type" = Some (VStr "fortnight").
Proof.
  apply (proj1 (get_measurements_passes_granularity
                  (ok_transport (JList [JNum 3])) demo_aggregated_parser
                  demo_manager (VStr "st1") (VStr "fortnight")
                  1000%Z 2000%Z (VInt 5) (State 0%nat []))).
  - discriminate.
  - discriminate.
  - lia.
  - lia.
  - right. exists 5%Z. split; [reflexivity|lia].
Defined.

(** ** The order of the checks of [create_station]

    The required arguments are looked at before the ranges: a call with
    a longitude out of range but no external identifier is refused by
    an assertion, not by the [ValueError] of the longitude. *)
Lemma create_station_range_counterexample :
  outside (NInt 200) (-180) 180
  /\ create_station (ok_transport JNull) demo_station_parser demo_manager
       VNone (VStr "roof") (Some (NInt 45)) (Some (NInt 200)) None
       (State 0%nat [])
     = (Raise (AssertionError None), State 0%nat [])
  /\ ~ (exists msg,
          create_station (ok_transport JNull) demo_station_parser
            demo_manager VNone (VStr "roof") (Some (NInt 45))
            (Some (NInt 200)) None (State 0%nat [])
          = (Raise (ValueError msg), State 0%nat [])).
Proof.
  split; [right; reflexivity|]. split; [reflexivity|].
  intros [msg Hrun]. vm_compute in Hrun. discriminate Hrun.
Qed.

(** ** The order of the checks of [get_measurements]

    The timestamps are compared with each other only after each of them
    was found positive: a window that ends before it begins but has a
    non-positive end is refused by an assertion, not by the [ValueError]
    of the window. *)
Lemma get_measurements_window_counterexample :
  (-3 < 5)%Z
  /\ get_measurements (ok_transport JNull) demo_aggregated_parser
       demo_manager (VStr "st1") (VStr "h") (Some 5%Z) (Some (-3)%Z) VNone
       (State 0%nat [])
     = (Raise (AssertionError None), State 0%nat [])
  /\ ~ (exists msg,
          get_measurements (ok_transport JNull) demo_aggregated_parser
            demo_manager (VStr "st1") (VStr "h") (Some 5%Z) (Some (-3)%Z)
            VNone (State 0%nat [])
          = (Raise (ValueError msg), State 0%nat [])).
Proof.
  split; [lia|]. split; [reflexivity|].
  intros [msg Hrun]. vm_compute in Hrun. discriminate Hrun.
Qed.

(** ** Construction of the manager *)

Example init_without_key :
  init None = Raise (AssertionError (Some "You must provide a valid API Key")).
Proof. reflexivity. Qed.

Example init_with_key : init (Some "key") = Return demo_manager.
Proof. reflexivity. Qed.

(** ** The further properties at work on the test doubles *)

Lemma get_station_always_asks_witness :
  get_station (ok_transport (JStr "s1")) demo_station_parser demo_manager
    None (State 0%nat [])
  = (demo_station_parser (JStr "s1"),
     {| world := 1%nat;
        calls := [] ++ [get_station_request demo_manager None] |}).
Proof.
  apply (proj1 (proj2 (get_station_always_asks (ok_transport (JStr "s1"))
                         demo_station_parser demo_manager None
                         (State 0%nat []))) 200%Z (JStr "s1") 1%nat).
  reflexivity.
Defined.

Lemma send_measurement_cases_witness :
  send_measurement (ok_transport JNull) demo_manager (Some reading_orphan)
    (State 0%nat [])
  = (Raise (AssertionError None), State 0%nat [])
  /\ calls (snd (send_measurement (ok_transport JNull) demo_manager
                   (Some reading_a) (State 0%nat [])))
     = [] ++ [measurement_post demo_manager reading_a].
Proof.
  split.
  - apply (proj1 (send_measurement_cases (ok_transport JNull) demo_manager
                    (Some reading_orphan) (State 0%nat []))).
    right. exists reading_orphan. split; reflexivity.
  - apply (proj2 (send_measurement_cases (ok_transport JNull) demo_manager
                    (Some reading_a) (State 0%nat [])) reading_a).
    + reflexivity.
    + discriminate.
Defined.

Lemma send_measurements_as_send_buffer_witness :
  send_measurements (flaky_transport 1) demo_manager
    (Some [reading_a; reading_b]) (State 0%nat [])
  = send_buffer (flaky_transport 1) demo_manager
      (Some {| measurements := [reading_a; reading_b] |}) (State 0%nat []).
Proof.
  apply (send_measurements_as_send_buffer (flaky_transport 1) demo_manager
           [reading_a; reading_b] (State 0%nat [])).
  reflexivity.
Defined.

Lemma get_measurements_asks_iff_valid_witness :
  (exists f t,
      Some 1000%Z = Some f /\ Some 1000%Z = Some t
      /\ calls (snd (get_measurements (ok_transport (JList []))
                       demo_aggregated_parser demo_manager (VStr "st1")
                       (VStr "h") (Some 1000%Z) (Some 1000%Z) (VInt 0)
                       (State 0%nat [])))
         = [] ++ [get_measurements_request demo_manager (VStr "st1")
                    (VStr "h") f t (VInt 0)])
  /\ exists e,
      get_measurements (ok_transport (JList [])) demo_aggregated_parser
        demo_manager (VStr "st1") (VStr "h") (Some 1000%Z) (Some 2000%Z)
        (VFloat (Finite 5)) (State 0%nat [])
      = (Raise e, State 0%nat [])
      /\ (e = AssertionError None \/ e = ValueError window_message).
Proof.
  split.
  - apply (proj1 (get_measurements_asks_iff_valid (ok_transport (JList []))
                    demo_aggregated_parser demo_manager (VStr "st1")
                    (VStr "h") (Some 1000%Z) (Some 1000%Z) (VInt 0)
                    (State 0%nat []))).
    split; [discriminate|]. split; [discriminate|]. split.
    + exists 1000%Z, 1000%Z. repeat split; lia.
    + right. exists 0%Z. split; [reflexivity|lia].
  - apply (proj2 (get_measurements_asks_iff_valid (ok_transport (JList []))
                    demo_aggregated_parser demo_manager (VStr "st1")
                    (VStr "h") (Some 1000%Z) (Some 2000%Z) (VFloat (Finite 5))
                    (State 0%nat []))).
    intros (_ & _ & _ & [Hl|(z & Hz & _)]); discriminate.
Defined.

Lemma get_measurements_window_error_iff_witness :
  get_measurements (ok_transport (JList [])) demo_aggregated_parser
    demo_manager (VStr "st1") (VStr "h") (Some 2000%Z) (Some 1000%Z)
    (VStr "many") (State 0%nat [])
  = (Raise (ValueError window_message), State 0%nat []).
Proof.
  apply (proj2 (get_measurements_window_error_iff (ok_transport (JList []))
                  demo_aggregated_parser demo_manager (VStr "st1")
                  (VStr "h") (Some 2000%Z) (Some 1000%Z) (VStr "many")
                  (State 0%nat []))).
  split; [discriminate|]. split; [discriminate|].
  exists 2000%Z, 1000%Z. repeat split; lia.
Defined.

Lemma measurements_args_example :
  measurements_args_ok (VStr "st1") (VStr "h") (Some 1000%Z) (Some 2000%Z)
    (VInt 5).
Proof.
  split; [discriminate|]. split; [discriminate|]. split.
  - exists 1000%Z, 2000%Z. repeat split; lia.
  - right. exists 5%Z. split; [reflexivity|lia].
Defined.

Lemma get_measurements_query_parameters_witness :
  exists r,
    calls (snd (get_measurements (ok_transport (JList []))
                  demo_aggregated_parser demo_manager (VStr "st1")
                  (VStr "h") (Some 1000%Z) (Some 2000%Z) (VInt 5)
                  (State 0%nat [])))
    = [] ++ [r]
    /\ params r !! "station_id" = Some (VStr "st1")
    /\ params r !! "from" = Some (VInt 1000)
    /\ params r !! "to" = Some (VInt 2000)
    /\ params r !! "limit" = Some (VInt 5)
    /\ data r = None
    /\ forall k, params r !! k <> None ->
                 In k ["appid"; "station_id"; "type"; "from"; "to"; "limit"].
Proof.
  apply (get_measurements_query_parameters (ok_transport (JList []))
           demo_aggregated_parser demo_manager (VStr "st1") (VStr "h")
           1000%Z 2000%Z (VInt 5) (State 0%nat [])
           measurements_args_example).
Defined.

Lemma get_measurements_parses_each_item_witness :
  exists ms,
    get_measurements (ok_transport (JList [JNum 3; JNum 4]))
      demo_aggregated_parser demo_manager (VStr "st1") (VStr "h")
      (Some 1000%Z) (Some 2000%Z) (VInt 5) (State 0%nat [])
    = (Return ms,
       {| world := 1%nat;
          calls := [] ++ [get_measurements_request demo_manager (VStr "st1")
                            (VStr "h") 1000 2000 (VInt 5)] |}).
Proof.
  apply (proj2 (get_measurements_parses_each_item
                  (ok_transport (JList [JNum 3; JNum 4]))
                  demo_aggregated_parser demo_manager (VStr "st1")
                  (VStr "h") 1000%Z 2000%Z (VInt 5) (State 0%nat []) 200%Z
                  [JNum 3; JNum 4] 1%nat measurements_args_example
                  eq_refl)).
  intros item [<-|[<-|[]]]; eexists; reflexivity.
Defined.

Lemma parser_error_propagates_witness :
  get_stations (ok_transport (JList ([JStr "s1"] ++ JNull :: [JStr "s3"])))
    demo_station_parser demo_manager (State 0%nat [])
  = (Raise (CollaboratorError "not a station"),
     {| world := 1%nat;
        calls := [] ++ [get_stations_request demo_manager] |}).
Proof.
  apply (proj1 (parser_error_propagates
                  (ok_transport (JList ([JStr "s1"] ++ JNull :: [JStr "s3"])))
                  demo_station_parser demo_aggregated_parser demo_manager
                  (State 0%nat []) 200%Z [JStr "s1"] [JStr "s3"] JNull
                  (CollaboratorError "not a station") 1%nat)).
  - reflexivity.
  - intros y [<-|[]]. eexists; reflexivity.
  - reflexivity.
Defined.

Lemma create_station_error_order_witness :
  create_station (ok_transport JNull) demo_station_parser demo_manager
    (VStr "ext") (VStr "roof") (Some (NInt 100)) (Some (NInt 200))
    (Some (NInt (-1))) (State 0%nat [])
  = (Raise (ValueError lon_message), State 0%nat [])
  /\ create_station (ok_transport JNull) demo_station_parser demo_manager
       (VStr "ext") (VStr "roof") (Some (NInt 100)) (Some (NFloat NaN))
       (Some (NInt (-1))) (State 0%nat [])
     = (Raise (ValueError lat_message), State 0%nat []).
Proof.
  split.
  - apply (proj2 (proj1 (create_station_error_order (ok_transport JNull)
                           demo_station_parser demo_manager (VStr "ext")
                           (VStr "roof") (Some (NInt 100)) (Some (NInt 200))
                           (Some (NInt (-1))) (State 0%nat [])))).
    split; [repeat split; discriminate|].
    exists (NInt 200). split; [reflexivity|]. right. reflexivity.
  - apply (proj2 (proj1 (proj2 (create_station_error_order
                                  (ok_transport JNull) demo_station_parser
                                  demo_manager (VStr "ext") (VStr "roof")
                                  (Some (NInt 100)) (Some (NFloat NaN))
                                  (Some (NInt (-1))) (State 0%nat []))))).
    split; [repeat split; discriminate|].
    exists (NFloat NaN), (NInt 100). split; [reflexivity|].
    split; [reflexivity|]. split; [|right; reflexivity].
    intros [H|H]; discriminate H.
Defined.

Lemma station_args_example :
  station_args_ok (VStr "ext") (VStr "roof") (Some (NInt 45))
    (Some (NFloat NaN)) None.
Proof.
  split; [discriminate|]. split; [discriminate|]. split.
  - exists (NInt 45), (NFloat NaN).
    repeat split; intros [H|H]; discriminate H.
  - intros a [=].
Defined.

Lemma create_station_asks_iff_valid_witness :
  (exists la lo r body,
      Some (NInt 45) = Some la /\ Some (NFloat NaN) = Some lo
      /\ calls (snd (create_station (ok_transport (JStr "s1"))
                       demo_station_parser demo_manager (VStr "ext")
                       (VStr "roof") (Some (NInt 45)) (Some (NFloat NaN))
                       None (State 0%nat [])))
         = [] ++ [r]
      /\ meth r = POST /\ url r = stations_url /\ data r = Some body
      /\ body !! "external_id" = Some (VStr "ext")
      /\ body !! "name" = Some (VStr "roof")
      /\ body !! "lat" = Some (of_number la)
      /\ body !! "lon" = Some (of_number lo)
      /\ body !! "alt" = Some VNone)
  /\ exists e,
      create_station (ok_transport (JStr "s1")) demo_station_parser
        demo_manager VNone (VStr "roof") (Some (NInt 45))
        (Some (NFloat NaN)) None (State 0%nat [])
      = (Raise e, State 0%nat [])
      /\ (e = AssertionError None \/ e = ValueError lon_message
          \/ e = ValueError lat_message \/ e = ValueError alt_message).
Proof.
  split.
  - apply (proj1 (create_station_asks_iff_valid (ok_transport (JStr "s1"))
                    demo_station_parser demo_manager (VStr "ext")
                    (VStr "roof") (Some (NInt 45)) (Some (NFloat NaN)) None
                    (State 0%nat [])) station_args_example).
  - apply (proj2 (create_station_asks_iff_valid (ok_transport (JStr "s1"))
                    demo_station_parser demo_manager VNone
                    (VStr "roof") (Some (NInt 45)) (Some (NFloat NaN)) None
                    (State 0%nat []))).
    intros (He & _). by apply He.
Defined.

Lemma create_station_returns_parsed_answer_witness :
  create_station (ok_transport (JStr "s1")) demo_station_parser demo_manager
    (VStr "ext") (VStr "roof") (Some (NInt 45)) (Some (NFloat NaN)) None
    (State 0%nat [])
  = (demo_station_parser (JStr "s1"),
     {| world := 1%nat;
        calls := [] ++ [create_station_request demo_manager (VStr "ext")
                          (VStr "roof") (NInt 45) (NFloat NaN) None] |}).
Proof.
  apply (create_station_returns_parsed_answer (ok_transport (JStr "s1"))
           demo_station_parser demo_manager (VStr "ext") (VStr "roof")
           (NInt 45) (NFloat NaN) None (State 0%nat []) 200%Z (JStr "s1")
           1%nat station_args_example).
  reflexivity.
Defined.

Lemma transport_error_propagates_witness :
  get_stations (flaky_transport 0) demo_station_parser demo_manager
    (State 0%nat [])
  = (Raise (CollaboratorError "connection refused"),
     {| world := 1%nat;
        calls := [] ++ [get_stations_request demo_manager] |})
  /\ delete_station (flaky_transport 0) demo_manager
       (demo_station (Some "s1")) (State 0%nat [])
     = (Raise (CollaboratorError "connection refused"),
        {| world := 1%nat;
           calls := [] ++ [delete_station_request demo_manager
                             (demo_station (Some "s1"))] |}).
Proof.
  split.
  - apply (proj1 (transport_error_propagates (flaky_transport 0)
                    demo_station_parser demo_aggregated_parser demo_manager
                    (Measurement := reading) (State 0%nat [])
                    (CollaboratorError "connection refused") 1%nat)).
    reflexivity.
  - apply (proj1 (proj2 (proj2 (proj2 (proj2
             (transport_error_propagates (flaky_transport 0)
                demo_station_parser demo_aggregated_parser demo_manager
                (Measurement := reading) (State 0%nat [])
                (CollaboratorError "connection refused") 1%nat)))))
           (demo_station (Some "s1")) "s1").
    + reflexivity.
    + reflexivity.
Defined.

Lemma update_and_delete_requests_witness :
  exists r,
    calls (snd (delete_station (ok_transport JNull) demo_manager
                  (demo_station (Some "s1")) (State 0%nat [])))
    = [] ++ [r]
    /\ url r = "http://api.openweathermap.org/data/3.0/stations/" +:+ "s1"
    /\ data r = None.
Proof.
  apply (proj2 (update_and_delete_requests (ok_transport JNull) demo_manager
                  (demo_station (Some "s1")) "s1" (State 0%nat [])
                  eq_refl)).
Defined.
